(** * Case-study notebooks: a shallow embedding of their computations

    The repository is a set of Jupyter notebooks.  Five of them compute
    something: the unit-economics notebook ([calculate_unit_economics] and the
    break-even cell), the product-tiering notebook (revenue per tier), the
    customer-profitability notebook (a seeded random table, CLTV and the
    CLTV:CAC ratio), the revenue-model notebook (revenue, cost and gross
    margin per million tokens) and the pricing notebook (the cost of a number
    of tokens).  Each is embedded below as the code has it:

    - Python [float] and NumPy [float64] are IEEE 754 binary64 numbers, taken
      from the Standard Library's executable specification [SpecFloat];
    - Python [int] is [Z]; an [int64] column wraps around at 64 bits;
    - scalar Python code that can raise runs in a small monad that also logs
      every true division it evaluates and every line it prints; an int that
      does not fit a binary64 raises [OverflowError] where Python converts it;
    - a DataFrame is a record of columns, and a column operation is the
      element-wise operation on lists;
    - [round] is NumPy's documented multiply, [rint], divide; the random
      generator and [mean], which the repository only calls, are an interface
      with its laws, and so is seaborn's [barplot], whose error bars come from
      a generator of its own.

    Definitions come first, one module per notebook; the properties follow. *)

From Stdlib Require Import ZArith String Ascii List Bool Lia Sorted.
From Stdlib Require Import DecimalString.
From Stdlib Require Import Floats.SpecFloat.
Import ListNotations.

Open Scope string_scope.
Open Scope list_scope.
Open Scope Z_scope.

(** ** Binary64 arithmetic *)

Module B64.

Definition prec : Z := 53.
Definition emax : Z := 1024.

Definition float : Type := spec_float.

(** The binary64 number nearest to the integer [n], ties to even; an infinity
    when [n] rounds beyond the largest float.  It is NumPy's conversion of an
    [int64] cell and Python's conversion of an int literal, neither of which
    can overflow; for a Python int of any size see [Py.to_float]. *)
Definition of_Z (n : Z) : float := binary_normalize prec emax n 0 false.

Definition fadd : float -> float -> float := SFadd prec emax.
Definition fsub : float -> float -> float := SFsub prec emax.
Definition fmul : float -> float -> float := SFmul prec emax.
Definition fdiv : float -> float -> float := SFdiv prec emax.

(** [x >= y] as the IEEE comparison: false when either side is NaN. *)
Definition fge (x y : float) : bool := SFleb y x.

Definition is_nan (x : float) : bool :=
  match x with
  | S754_nan => true
  | _ => false
  end.

Definition is_zero (x : float) : bool :=
  match x with
  | S754_zero _ => true
  | _ => false
  end.

Definition is_finite (x : float) : bool :=
  match x with
  | S754_zero _ | S754_finite _ _ _ => true
  | _ => false
  end.

(** Integers below [2^1023] in magnitude, every [int64] among them: they and
    their quotients convert to a float without overflow. *)
Definition in_float_range (n : Z) : Prop := Z.abs n < 2 ^ 1023.

(** The quotient of two integers, [b] not zero, rounded once, whatever their
    size: an infinity when it rounds beyond the largest float. *)
Definition int_truediv (a b : Z) : float :=
  match a with
  | Z0 => S754_zero (b <? 0)
  | _ =>
    let '(q, e, l) := SFdiv_core_binary prec emax (Z.abs a) 0 (Z.abs b) 0 in
    binary_round_aux prec emax (xorb (a <? 0) (b <? 0)) q e l
  end.

(** The decimal literal [n * 10^-k] of the source text, e.g. [0.001] is
    [decimal 1 3]: Python reads it as the binary64 number nearest to it. *)
Definition decimal (n : Z) (k : nat) : float := int_truediv n (10 ^ Z.of_nat k).

(** [numpy.rint]: the nearest integer, a tie going to the even one; the sign of
    a zero result is the sign of the argument. *)
Definition rint (x : float) : float :=
  match x with
  | S754_finite s m e =>
    if 0 <=? e then x
    else
      let '(mrs, _) := shr (Build_shr_record (Z.pos m) false false) e (- e) in
      match round_nearest_even (shr_m mrs) (loc_of_shr_record mrs) with
      | Z0 => S754_zero s
      | n => binary_normalize prec emax (if s then - n else n) 0 s
      end
  | _ => x
  end.

(** The integer part of a float, towards zero. *)
Definition trunc (x : float) : Z :=
  match x with
  | S754_finite s m e =>
    let n := if 0 <=? e then Z.pos m * 2 ^ e else Z.pos m / 2 ^ (- e) in
    if s then - n else n
  | _ => 0
  end.

(** The exact value [m * 2^e] of a finite float, as the pair [(m, e)]. *)
Definition exact (x : float) : option (Z * Z) :=
  match x with
  | S754_zero _ => Some (0, 0)
  | S754_finite s m e => Some (if s then Z.neg m else Z.pos m, e)
  | _ => None
  end.

(** [x] is finite and its value is the rational [n / d]. *)
Definition is_exactly (x : float) (n : Z) (d : positive) : bool :=
  match exact x with
  | Some (m, e) =>
    if 0 <=? e then (m * 2 ^ e * Z.pos d =? n)
    else (m * Z.pos d =? n * 2 ^ (- e))
  | None => false
  end.

End B64.

(** ** Python scalars, exceptions and the log of divisions and prints *)

Module Py.
Import B64.

Inductive pynum : Type :=
| PyInt (n : Z)
| PyFloat (x : float).

Inductive exn : Type :=
| ZeroDivisionError
| OverflowError (msg : string)
| NameError (name : string)
| KeyError (key : string)
| ValueError (msg : string).

(** One evaluated true division, with its operands, or one printed line. *)
Inductive event : Type :=
| TrueDiv (num den : pynum)
| Printed (line : string).

(** A computation returns its log and either an exception or a value. *)
Definition M (A : Type) : Type := (list event * (exn + A))%type.

Definition ret {A : Type} (a : A) : M A := ([], inr a).

Definition raise {A : Type} (e : exn) : M A := ([], inl e).

Definition bind {A B : Type} (m : M A) (k : A -> M B) : M B :=
  match m with
  | (t, inl e) => (t, inl e)
  | (t, inr a) => let '(t', r) := k a in (t ++ t', r)
  end.

Definition log {A : Type} (m : M A) : list event := fst m.
Definition outcome {A : Type} (m : M A) : exn + A := snd m.

Declare Scope py_scope.
Delimit Scope py_scope with py.
Notation "x <- m ;; k" := (bind m (fun x => k))
  (at level 61, m at next level, right associativity) : py_scope.

(** The conversion Python applies to an int that meets a float in arithmetic
    or is formatted as one: an int that rounds beyond the largest float raises
    [OverflowError]. *)
Definition to_float (v : pynum) : M float :=
  match v with
  | PyInt n =>
    if is_finite (of_Z n) then ret (of_Z n)
    else raise (OverflowError "int too large to convert to float")
  | PyFloat x => ret x
  end.

Definition num_is_zero (v : pynum) : bool :=
  match v with
  | PyInt n => n =? 0
  | PyFloat x => is_zero x
  end.

(** [a / b], logged.  Two ints: [ZeroDivisionError] on a zero divisor, else the
    quotient rounded once, [OverflowError] when it is too large for a float.
    Otherwise both operands are converted first, then a zero divisor raises
    [ZeroDivisionError]. *)
Definition truediv (a b : pynum) : M float :=
  ([TrueDiv a b],
   match a, b with
   | PyInt x, PyInt y =>
     if y =? 0 then inl ZeroDivisionError
     else if is_finite (int_truediv x y) then inr (int_truediv x y)
     else inl (OverflowError "integer division result too large for a float")
   | _, _ =>
     match outcome (to_float a), outcome (to_float b) with
     | inl e, _ => inl e
     | inr _, inl e => inl e
     | inr x, inr y =>
       if num_is_zero b then inl ZeroDivisionError else inr (fdiv x y)
     end
   end).

(** [print(line)] *)
Definition print (line : string) : M unit := ([Printed line], inr tt).

(** The digits of a natural number with a comma before every group of three,
    on the reversed list of digits. *)
Fixpoint group_thousands (fuel : nat) (digits : list ascii) : list ascii :=
  match fuel, digits with
  | S fuel', a :: b :: c :: ((_ :: _) as rest) =>
    a :: b :: c :: ","%char :: group_thousands fuel' rest
  | _, _ => digits
  end.

(** [f"{n:,.2f}"] for an int [n]: the int is converted to a float, whose value
    is an integer, and shown with thousands separators and two decimals. *)
Definition format_comma_2f (n : Z) : M string :=
  (x <- to_float (PyInt n) ;;
   let digits :=
     list_ascii_of_string (NilZero.string_of_uint (N.to_uint (Z.to_N (Z.abs (trunc x))))) in
   let grouped := rev (group_thousands (length digits) (rev digits)) in
   let sign := if trunc x <? 0 then "-" else "" in
   ret (sign ++ string_of_list_ascii grouped ++ ".00")%string)%py.

(** The computation raises nothing and its value is exactly [n / d]. *)
Definition returns_exactly (m : M float) (n : Z) (d : positive) : Prop :=
  exists x : float, outcome m = inr x /\ is_exactly x n d = true.

(** [DataFrame.apply(f, axis=1)]: [f] on each row in order, stopping at the
    first exception. *)
Fixpoint apply_rows {A B : Type} (f : A -> M B) (rows : list A) : M (list B) :=
  match rows with
  | [] => ret []
  | r :: rows' =>
    (y <- f r ;;
     ys <- apply_rows f rows' ;;
     ret (y :: ys))%py
  end.

End Py.

(** ** What the notebooks call from NumPy and pandas *)

Module Lib.
Import B64 Py.

(** An arithmetic operation on two columns of one table works cell by cell,
    row [i] with row [i]. *)
Definition zip_with {A B C : Type} (f : A -> B -> C) (xs : list A) (ys : list B) : list C :=
  map (fun p => f (fst p) (snd p)) (combine xs ys).

(** [.round(2)] on one float64 cell.  NumPy documents its rounding to
    [decimals] places as [true_divide(rint(a * 10**decimals), 10**decimals)]. *)
Definition round2 (x : float) : float :=
  fdiv (rint (fmul x (of_Z 100))) (of_Z 100).

(** The global generator of [numpy.random] is a state that [seed] replaces and
    that every sampler reads and advances; [mean] is the mean of a float64
    column. *)
Class NumLib : Type := {
  rng : Type;
  seed : Z -> rng;
  random_choice : list string -> nat -> list float -> rng -> list string * rng;
  random_normal : float -> float -> nat -> rng -> list float * rng;
  random_uniform : float -> float -> nat -> rng -> list float * rng;
  random_randint : Z -> Z -> nat -> rng -> list Z * rng;
  mean : list float -> float
}.

(** [np.random.seed(s)]: the global generator is re-initialised from [s],
    whatever its state was. *)
Definition np_random_seed {L : NumLib} (s : Z) (g : rng) : rng := seed s.

(** The laws the proofs use: a sampler asked for [size=n] returns [n] values,
    and [normal] never returns NaN. *)
Class NumLibLaws (L : NumLib) : Prop := {
  random_choice_length : forall a n p g, length (fst (random_choice a n p g)) = n;
  random_normal_length : forall loc scale n g, length (fst (random_normal loc scale n g)) = n;
  random_uniform_length : forall lo hi n g, length (fst (random_uniform lo hi n g)) = n;
  random_randint_length : forall lo hi n g, length (fst (random_randint lo hi n g)) = n;
  random_normal_number : forall loc scale n g,
    is_nan loc = false -> is_nan scale = false ->
    Forall (fun x => is_nan x = false) (fst (random_normal loc scale n g))
}.

(** seaborn's [barplot(x=..., y=..., data=...)] draws one bar per category of
    [x]: its height is the mean of the category's [y] values and its error bar
    a bootstrap confidence interval.  The resampling uses a generator that
    seaborn creates for the call ([seed=None]), not the global generator of
    [numpy.random]: its state is an input of the call.  A name that is not a
    column of [data] is refused with an exception of seaborn's own. *)
Class PlotLib : Type := {
  bars : Type;
  bootstrap_state : Type;
  barplot : list string -> list float -> bootstrap_state -> bars;
  not_a_column : string -> exn
}.

End Lib.

(** ** The unit-economics notebook (07_unit_economics.ipynb) *)

Module UnitEconomics.
Import B64 Py Lib.
Local Open Scope py_scope.

(** The [assumptions] dict; its keys are fixed, so it is a record. *)
Record assumptions_t : Type := {
  inference_cost_per_1k_tokens : float;
  fine_tune_cost_per_1k_tokens : float;
  revenue_per_1k_tokens : float;
  support_cost_per_customer : Z;
  customer_acquisition_cost : Z
}.

Definition assumptions : assumptions_t := {|
  inference_cost_per_1k_tokens := decimal 1 3;
  fine_tune_cost_per_1k_tokens := decimal 15 1;
  revenue_per_1k_tokens := decimal 2 3;
  support_cost_per_customer := 200;
  customer_acquisition_cost := 400
|}.

(** One row of the [cohorts] table. *)
Record cohort : Type := {
  name : string;
  monthly_tokens : Z;
  fine_tune_tokens : Z;
  payment : Z;
  churn : float;
  count : Z
}.

Definition indie : cohort :=
  {| name := "Indie"; monthly_tokens := 500000; fine_tune_tokens := 0;
     payment := 0; churn := decimal 10 2; count := 1000 |}.

Definition smb : cohort :=
  {| name := "SMB"; monthly_tokens := 10000000; fine_tune_tokens := 50000;
     payment := 1500; churn := decimal 5 2; count := 200 |}.

Definition enterprise : cohort :=
  {| name := "Enterprise"; monthly_tokens := 100000000; fine_tune_tokens := 500000;
     payment := 25000; churn := decimal 2 2; count := 20 |}.

Definition cohorts : list cohort := [indie; smb; enterprise].

(** The [pd.Series] a row is mapped to; its three cells are float64. *)
Record economics : Type := {
  total_cost : float;
  margin : float;
  gross_margin_pct : float
}.

Definition calculate_unit_economics (row : cohort) : M economics :=
  per_1k <- truediv (PyInt (monthly_tokens row)) (PyInt 1000) ;;
  let token_cost := fmul per_1k (inference_cost_per_1k_tokens assumptions) in
  ft_per_1k <- truediv (PyInt (fine_tune_tokens row)) (PyInt 1000) ;;
  let fine_tune_cost := fmul ft_per_1k (fine_tune_cost_per_1k_tokens assumptions) in
  support_cost <- to_float (PyInt (support_cost_per_customer assumptions)) ;;
  let total_cost := fadd (fadd token_cost fine_tune_cost) support_cost in
  payment_as_float <- to_float (PyInt (payment row)) ;;
  let margin := fsub payment_as_float total_cost in
  gross_margin_pct <-
    (if payment row >? 0
     then (ratio <- truediv (PyFloat margin) (PyInt (payment row)) ;;
           ret (PyFloat (fmul ratio (of_Z 100))))
     else ret (PyInt 0)) ;;
  gross_margin_pct <- to_float gross_margin_pct ;;
  ret {| total_cost := total_cost;
         margin := margin;
         gross_margin_pct := gross_margin_pct |}.

(** A row whose token counts and payment are in the range of a float. *)
Definition row_in_float_range (row : cohort) : Prop :=
  in_float_range (monthly_tokens row) /\
  in_float_range (fine_tune_tokens row) /\
  in_float_range (payment row).

(** The cost formula as the specification words it:
    [(monthly_tokens / 1000) * 0.001 + (fine_tune_tokens / 1000) * 1.5 + 200]. *)
Definition total_cost_formula (row : cohort) : float :=
  fadd (fadd (fmul (int_truediv (monthly_tokens row) 1000) (decimal 1 3))
             (fmul (int_truediv (fine_tune_tokens row) 1000) (decimal 15 1)))
       (of_Z 200).

(** [cohorts.join(cohorts.apply(calculate_unit_economics, axis=1))], the table
    the notebook binds to [cohorts] again. *)
Definition join_economics (rows : list cohort) : M (list (cohort * economics)) :=
  computed <- apply_rows calculate_unit_economics rows ;;
  ret (combine rows computed).

Definition cohorts_joined : M (list (cohort * economics)) := join_economics cohorts.

(** The break-even cell.  [mean] returns a NumPy float64, so the division is
    NumPy's: a zero divisor gives an infinity or NaN, not an exception. *)
Definition avg_monthly_margin {L : NumLib} (table : list (cohort * economics)) : float :=
  mean (map (fun r => margin (snd r)) table).

Definition breakeven_customers {L : NumLib} (table : list (cohort * economics)) : float :=
  fdiv (of_Z (customer_acquisition_cost assumptions)) (avg_monthly_margin table).

End UnitEconomics.

(** ** The revenue-model notebook (04 - Unit Economics and Revenue Modeling) *)

Module RevenueModel.
Import B64 Py.
Local Open Scope py_scope.

Definition price_input_per_million : Z := 30.
Definition price_output_per_million : Z := 60.
Definition cost_input_per_million : Z := 6.
Definition cost_output_per_million : Z := 12.

Definition input_tokens : Z := 2000000.
Definition output_tokens : Z := 1000000.

Definition revenue : M float :=
  i <- truediv (PyInt input_tokens) (PyInt 1000000) ;;
  o <- truediv (PyInt output_tokens) (PyInt 1000000) ;;
  ret (fadd (fmul i (of_Z price_input_per_million))
            (fmul o (of_Z price_output_per_million))).

Definition cost : M float :=
  i <- truediv (PyInt input_tokens) (PyInt 1000000) ;;
  o <- truediv (PyInt output_tokens) (PyInt 1000000) ;;
  ret (fadd (fmul i (of_Z cost_input_per_million))
            (fmul o (of_Z cost_output_per_million))).

Definition gross_margin : M float :=
  revenue <- revenue ;;
  cost <- cost ;;
  ratio <- truediv (PyFloat (fsub revenue cost)) (PyFloat revenue) ;;
  ret (fmul ratio (of_Z 100)).

Definition monthly_revenue_per_customer : M float :=
  two_thirds <- truediv (PyInt 2) (PyInt 3) ;;
  one_third <- truediv (PyInt 1) (PyInt 3) ;;
  ret (fmul (fadd (fmul two_thirds (of_Z price_input_per_million))
                  (fmul one_third (of_Z price_output_per_million)))
            (of_Z 100)).

Definition annual_revenue : M float :=
  monthly <- monthly_revenue_per_customer ;;
  ret (fmul (fmul monthly (of_Z 12)) (of_Z 1000)).

(** [annual_revenue/1e6], the number the last cell prints with one decimal. *)
Definition annual_revenue_millions : M float :=
  annual <- annual_revenue ;;
  truediv (PyFloat annual) (PyFloat (of_Z 1000000)).

End RevenueModel.

(** ** The GTM strategy and pricing notebook *)

Module PricingSimulation.
Import Py.
Local Open Scope py_scope.

(** [estimate_claude_cost], called on two ints: millions of input and of
    output tokens.  It prints the two costs and their total, each formatted as
    a float, and returns the total. *)
Definition estimate_claude_cost (input_tokens_m output_tokens_m : Z) : M Z :=
  let input_cost := input_tokens_m * 30 in
  let output_cost := output_tokens_m * 60 in
  let total := input_cost + output_cost in
  shown <- format_comma_2f input_cost ;;
  _ <- print ("Input cost:  $" ++ shown)%string ;;
  shown <- format_comma_2f output_cost ;;
  _ <- print ("Output cost: $" ++ shown)%string ;;
  shown <- format_comma_2f total ;;
  _ <- print ("Total:       $" ++ shown)%string ;;
  ret total.

End PricingSimulation.

(** ** The product-tiering notebook (03_product_tiering.ipynb) *)

Module ProductTiering.
Import B64 Lib.

(** A Python dict literal keeps insertion order: an association list. *)
Definition dict (V : Type) : Type := list (string * V).

Fixpoint dict_get {V : Type} (d : dict V) (k : string) : option V :=
  match d with
  | [] => None
  | (k', v) :: d' => if String.eqb k' k then Some v else dict_get d' k
  end.

Definition customers : dict Z := [
  ("Starter", 5000); ("Growth", 1200); ("Pro", 300); ("Enterprise", 50)
].

Definition pricing : dict Z := [
  ("Starter", 10); ("Growth", 250); ("Pro", 800); ("Enterprise", 5000)
].

(** The values of the two dicts of the notebook are small ints, for which
    pandas infers [int64] columns; the table is modelled for dicts of [int64]
    values, and the statements about its products assume them.

    An [int64] cell: arithmetic wraps around silently. *)
Definition wrap64 (z : Z) : Z := (z + 2 ^ 63) mod 2 ^ 64 - 2 ^ 63.

Inductive column : Type :=
| Int64 (cells : list Z)
| Float64 (cells : list float).

Definition as_float64 (c : column) : list float :=
  match c with
  | Int64 cells => map of_Z cells
  | Float64 cells => cells
  end.

(** [Series.map(dict)]: a key the dict lacks becomes NaN, which turns the whole
    column into float64. *)
Definition Series_map (d : dict Z) (keys : list string) : column :=
  let found := map (dict_get d) keys in
  if forallb (fun o => match o with Some _ => true | None => false end) found
  then Int64 (map (fun o => match o with Some v => v | None => 0 end) found)
  else Float64 (map (fun o => match o with Some v => of_Z v | None => S754_nan end) found).

Definition col_mul (a b : column) : column :=
  match a, b with
  | Int64 xs, Int64 ys => Int64 (zip_with (fun x y => wrap64 (x * y)) xs ys)
  | _, _ => Float64 (zip_with fmul (as_float64 a) (as_float64 b))
  end.

Definition col_mul_int (a : column) (n : Z) : column :=
  match a with
  | Int64 xs => Int64 (map (fun x => wrap64 (x * n)) xs)
  | Float64 xs => Float64 (map (fun x => fmul x (of_Z n)) xs)
  end.

Record frame : Type := {
  Tier : list string;
  Num_Customers : column;
  Price : column;
  Monthly_Revenue : column;
  Annual_Revenue : column
}.

(** The table the first code cell builds from two dicts. *)
Definition build (customers pricing : dict Z) : frame :=
  let tier := map fst customers in
  let num_customers := Int64 (map snd customers) in
  let price := Series_map pricing tier in
  let monthly_revenue := col_mul num_customers price in
  let annual_revenue := col_mul_int monthly_revenue 12 in
  {| Tier := tier;
     Num_Customers := num_customers;
     Price := price;
     Monthly_Revenue := monthly_revenue;
     Annual_Revenue := annual_revenue |}.

Definition df : frame := build customers pricing.

(** Row [i] of an int64 column. *)
Definition cell (c : column) (i : nat) : option Z :=
  match c with
  | Int64 cells => nth_error cells i
  | Float64 _ => None
  end.

End ProductTiering.

(** ** The customer-profitability notebook *)

Module CustomerProfitability.
Import B64 Py Lib.
Local Open Scope py_scope.

(** The table [df].  The six columns of [data] are always there; [CLTV] and
    [CLTV_CAC_Ratio] appear when a later cell assigns them. *)
Record frame : Type := {
  Customer_ID : list Z;
  Segment : list string;
  Annual_Revenue : list float;
  Gross_Margin : list float;
  CAC : list float;
  Retention_Years : list Z;
  CLTV : option (list float);
  CLTV_CAC_Ratio : option (list float)
}.

Definition set_Annual_Revenue (col : list float) (d : frame) : frame :=
  {| Customer_ID := Customer_ID d; Segment := Segment d; Annual_Revenue := col;
     Gross_Margin := Gross_Margin d; CAC := CAC d;
     Retention_Years := Retention_Years d;
     CLTV := CLTV d; CLTV_CAC_Ratio := CLTV_CAC_Ratio d |}.

Definition set_CAC (col : list float) (d : frame) : frame :=
  {| Customer_ID := Customer_ID d; Segment := Segment d;
     Annual_Revenue := Annual_Revenue d;
     Gross_Margin := Gross_Margin d; CAC := col;
     Retention_Years := Retention_Years d;
     CLTV := CLTV d; CLTV_CAC_Ratio := CLTV_CAC_Ratio d |}.

Definition set_CLTV (col : list float) (d : frame) : frame :=
  {| Customer_ID := Customer_ID d; Segment := Segment d;
     Annual_Revenue := Annual_Revenue d;
     Gross_Margin := Gross_Margin d; CAC := CAC d;
     Retention_Years := Retention_Years d;
     CLTV := Some col; CLTV_CAC_Ratio := CLTV_CAC_Ratio d |}.

Definition set_CLTV_CAC_Ratio (col : list float) (d : frame) : frame :=
  {| Customer_ID := Customer_ID d; Segment := Segment d;
     Annual_Revenue := Annual_Revenue d;
     Gross_Margin := Gross_Margin d; CAC := CAC d;
     Retention_Years := Retention_Years d;
     CLTV := CLTV d; CLTV_CAC_Ratio := Some col |}.

(** [df[key]] for a column a later cell adds. *)
Definition get_column (key : string) (col : option (list float)) : M (list float) :=
  match col with
  | Some c => ret c
  | None => raise (KeyError key)
  end.

(** [df.groupby('Segment')[key]]: selecting a column the table lacks raises
    [KeyError] with the text of the group-by selection. *)
Definition groupby_column (key : string) (col : option (list float)) : M (list float) :=
  match col with
  | Some c => ret c
  | None => raise (KeyError ("Column not found: " ++ key)%string)
  end.

(** [pd.DataFrame(data)] refuses columns of different lengths. *)
Definition DataFrame (data : frame) : M frame :=
  let n := length (Customer_ID data) in
  if ((length (Segment data) =? n) && (length (Annual_Revenue data) =? n) &&
      (length (Gross_Margin data) =? n) && (length (CAC data) =? n) &&
      (length (Retention_Years data) =? n))%nat
  then ret data
  else raise (ValueError "All arrays must be of the same length").

(** [Series.clip(lower=...)] on one cell: a missing value stays, a value below
    the bound is replaced by the bound. *)
Definition clip_lower (lower : Z) (x : float) : float :=
  if is_nan x then x
  else if fge x (of_Z lower) then x
  else of_Z lower.

(** The two lines under the comment "Clean any negative or weird values". *)
Definition clean (d : frame) : frame :=
  let d := set_Annual_Revenue (map (clip_lower 20000) (Annual_Revenue d)) d in
  set_CAC (map (clip_lower 5000) (CAC d)) d.

(** [groupby('Segment')]: the distinct keys in sorted order, and the cells of
    a column that belong to one key. *)
Fixpoint insert_key (k : string) (keys : list string) : list string :=
  match keys with
  | [] => [k]
  | k' :: keys' => if String.leb k k' then k :: keys else k' :: insert_key k keys'
  end.

Definition group_keys (segment : list string) : list string :=
  fold_right insert_key [] (nodup string_dec segment).

Definition group_cells {A : Type} (key : string) (segment : list string) (col : list A) : list A :=
  map snd (filter (fun p => String.eqb (fst p) key) (combine segment col)).

Record summary_row : Type := {
  summary_Segment : string;
  mean_Annual_Revenue : float;
  mean_Gross_Margin : float;
  mean_CAC : float;
  mean_Retention_Years : float
}.

(** The names the notebook binds: [df] and the two summary tables. *)
Record kernel : Type := {
  df : frame;
  cohort_summary : option (list summary_row);
  cltv_summary : option (list (string * float))
}.

Definition set_df (d : frame) (k : kernel) : kernel :=
  {| df := d; cohort_summary := cohort_summary k; cltv_summary := cltv_summary k |}.

Section Cells.
Context {L : NumLib}.

Definition n_customers : nat := 150.
Definition segments : list string := ["Startup"; "Enterprise"; "Government"].

(** The [data] dict: each column draws from the generator, in the order the
    dict literal lists them. *)
Definition data (g : rng) : frame * rng :=
  let '(segment, g) :=
    random_choice segments n_customers [decimal 5 1; decimal 3 1; decimal 2 1] g in
  let '(annual_revenue, g) := random_normal (of_Z 100000) (of_Z 30000) n_customers g in
  let '(gross_margin, g) := random_uniform (decimal 6 1) (decimal 85 2) n_customers g in
  let '(cac, g) := random_normal (of_Z 20000) (of_Z 5000) n_customers g in
  let '(retention_years, g) := random_randint 1 6 n_customers g in
  ({| Customer_ID := map Z.of_nat (seq 1 n_customers);
      Segment := segment;
      Annual_Revenue := map round2 annual_revenue;
      Gross_Margin := map round2 gross_margin;
      CAC := map round2 cac;
      Retention_Years := retention_years;
      CLTV := None;
      CLTV_CAC_Ratio := None |}, g).

(** The data-setup cell: it seeds the generator, builds [data], then [df], and
    cleans it.  It returns the state of the generator it leaves and the
    kernel. *)
Definition cell_setup (g0 : rng) : rng * M kernel :=
  let g := np_random_seed 42 g0 in
  let '(data, g) := data g in
  (g,
   d <- DataFrame data ;;
   ret {| df := clean d; cohort_summary := None; cltv_summary := None |}).

(** [df.groupby('Segment').agg({... 'mean'}).round(2).reset_index()] *)
Definition cell_cohort_summary (k : kernel) : M kernel :=
  let d := df k in
  let row key :=
    {| summary_Segment := key;
       mean_Annual_Revenue := round2 (mean (group_cells key (Segment d) (Annual_Revenue d)));
       mean_Gross_Margin := round2 (mean (group_cells key (Segment d) (Gross_Margin d)));
       mean_CAC := round2 (mean (group_cells key (Segment d) (CAC d)));
       mean_Retention_Years :=
         round2 (mean (map of_Z (group_cells key (Segment d) (Retention_Years d)))) |} in
  ret {| df := d;
         cohort_summary := Some (map row (group_keys (Segment d)));
         cltv_summary := cltv_summary k |}.

(** [df['CLTV'] = (df['Annual_Revenue'] * df['Gross_Margin']) * df['Retention_Years']]
    and then [df['CLTV'] = df['CLTV'].round(2)] *)
Definition cell_cltv (k : kernel) : M kernel :=
  let d := df k in
  let product :=
    zip_with (fun x years => fmul x (of_Z years))
             (zip_with fmul (Annual_Revenue d) (Gross_Margin d))
             (Retention_Years d) in
  let d := set_CLTV product d in
  cltv <- get_column "CLTV" (CLTV d) ;;
  let d := set_CLTV (map round2 cltv) d in
  ret (set_df d k).

(** [df.groupby('Segment')['CLTV'].mean().round(2).reset_index()] *)
Definition cell_cltv_summary (k : kernel) : M kernel :=
  let d := df k in
  cltv <- groupby_column "CLTV" (CLTV d) ;;
  let row key := (key, round2 (mean (group_cells key (Segment d) cltv))) in
  ret {| df := d;
         cohort_summary := cohort_summary k;
         cltv_summary := Some (map row (group_keys (Segment d))) |}.

(** [df['CLTV_CAC_Ratio'] = (df['CLTV'] / df['CAC']).round(2)], a float64
    column division: no guard, and no exception on a zero divisor. *)
Definition cell_ratio (k : kernel) : M kernel :=
  let d := df k in
  cltv <- get_column "CLTV" (CLTV d) ;;
  let ratio := map round2 (zip_with fdiv cltv (CAC d)) in
  ret (set_df (set_CLTV_CAC_Ratio ratio d) k).

(** The cells after the data setup that bind a name, in notebook order.  The
    plotting cells only read [df], and the section headings typed as code
    cells hold no statement. *)
Definition later_cells : list (kernel -> M kernel) :=
  [cell_cohort_summary; cell_cltv; cell_cltv_summary; cell_ratio].

Fixpoint run_cells (cells : list (kernel -> M kernel)) (k : kernel) : M kernel :=
  match cells with
  | [] => ret k
  | c :: cells' => k' <- c k ;; run_cells cells' k'
  end.

(** One execution of the notebook from a kernel whose generator is in state
    [g0]. *)
Definition run_notebook (g0 : rng) : M kernel :=
  k <- snd (cell_setup g0) ;;
  run_cells later_cells k.

End Cells.

(** The plotting lines.  Each [sns.barplot] call reads two columns and draws;
    [b i] is the state of the generator with which the [i]-th call of a run
    resamples for its error bars. *)
Section Plots.
Context {L : NumLib} {P : PlotLib}.

(** The cell of the four cohort plots, all drawn from [df]. *)
Definition cell_cohort_plots (b : nat -> bootstrap_state) (k : kernel) : M (list bars) :=
  let d := df k in
  ret [barplot (Segment d) (Annual_Revenue d) (b 0%nat);
       barplot (Segment d) (Gross_Margin d) (b 1%nat);
       barplot (Segment d) (CAC d) (b 2%nat);
       barplot (Segment d) (map of_Z (Retention_Years d)) (b 3%nat)].

(** The plotting lines of the CLTV summary cell: [sns.barplot(x='Segment',
    y='CLTV', data=cltv_summary)] on the name the cell has just bound. *)
Definition plot_cltv_summary (b : nat -> bootstrap_state) (k : kernel) : M (list bars) :=
  match cltv_summary k with
  | Some summary => ret [barplot (map fst summary) (map snd summary) (b 4%nat)]
  | None => raise (NameError "cltv_summary")
  end.

(** [sns.barplot(x='Segment', y='CLTV_CAC_Ratio', data=df)] *)
Definition cell_ratio_plot (b : nat -> bootstrap_state) (k : kernel) : M (list bars) :=
  match CLTV_CAC_Ratio (df k) with
  | Some ratio => ret [barplot (Segment (df k)) ratio (b 5%nat)]
  | None => raise (not_a_column "CLTV_CAC_Ratio")
  end.

(** One execution of every code cell in notebook order: the kernel it ends
    with and what the six [barplot] calls have drawn. *)
Definition run_notebook_plots (g0 : rng) (b : nat -> bootstrap_state) : M (kernel * list bars) :=
  k <- snd (cell_setup g0) ;;
  k <- cell_cohort_summary k ;;
  cohort_plots <- cell_cohort_plots b k ;;
  k <- cell_cltv k ;;
  k <- cell_cltv_summary k ;;
  cltv_plot <- plot_cltv_summary b k ;;
  k <- cell_ratio k ;;
  ratio_plot <- cell_ratio_plot b k ;;
  ret (k, cohort_plots ++ cltv_plot ++ ratio_plot).

End Plots.

(** [Annual_Revenue >= 20000] and [CAC >= 5000] on every row. *)
Definition bounded_below (d : frame) : Prop :=
  Forall (fun x => fge x (of_Z 20000) = true) (Annual_Revenue d) /\
  Forall (fun x => fge x (of_Z 5000) = true) (CAC d).

Definition rows (d : frame) : nat := length (Customer_ID d).

(** Every column has one cell per row. *)
Definition aligned (d : frame) : Prop :=
  length (Segment d) = rows d /\
  length (Annual_Revenue d) = rows d /\
  length (Gross_Margin d) = rows d /\
  length (CAC d) = rows d /\
  length (Retention_Years d) = rows d.

(** What holds of [df] from the data-setup cell on: 150 aligned rows within
    the two bounds. *)
Definition invariant (k : kernel) : Prop :=
  rows (df k) = 150%nat /\ aligned (df k) /\ bounded_below (df k).

(** The six columns of [data] are the same in two tables. *)
Definition same_columns (d d' : frame) : Prop :=
  Customer_ID d' = Customer_ID d /\
  Segment d' = Segment d /\
  Annual_Revenue d' = Annual_Revenue d /\
  Gross_Margin d' = Gross_Margin d /\
  CAC d' = CAC d /\
  Retention_Years d' = Retention_Years d.

End CustomerProfitability.

(** ** What running a notebook shows and writes *)

Module Rendering.

(** The observable effects of a code cell, in the order the cell produces
    them. *)
Inductive effect : Type :=
| DisplayTable (expression : string)
| DisplayValue (expression : string)
| PrintLine (text : string)
| ShowFigure (title : string)
| ShowError (exception : string)
| SaveFigure (path : string).

Record notebook : Type := {
  title : string;
  cells : list (list effect)
}.

(** 07_unit_economics.ipynb *)
Definition unit_economics : notebook := {|
  title := "Unit Economics Deep Dive: Cohere";
  cells := [
    [];
    [];
    [DisplayTable "cohorts"];
    [DisplayTable "cohorts"];
    [ShowFigure "Gross Margin % by Customer Cohort"];
    [PrintLine "Break-even point: {breakeven_customers:.1f} paying customers (avg across cohorts)"]
  ]
|}.

(** The competitive-analysis notebook *)
Definition competitive_analysis : notebook := {|
  title := "Competitive Analysis: Cohere vs. Other LLM Providers";
  cells := [ [DisplayTable "pricing_df"] ]
|}.

(** 03_product_tiering.ipynb *)
Definition product_tiering : notebook := {|
  title := "Product Tiering Strategy for Cohere";
  cells := [
    [DisplayTable "df"];
    [SaveFigure "../report/graphics/tiering_revenue.png";
     ShowFigure "Annual Revenue by Tier"]
  ]
|}.

(** The customer-profitability notebook.  Four of its section headings are
    typed as code cells; they hold prose, which does not parse, so running one
    shows the error and changes nothing. *)
Definition customer_profitability : notebook := {|
  title := "Customer Profitability Modeling";
  cells := [
    [ShowError "SyntaxError"];
    [DisplayTable "df.head()"];
    [ShowError "SyntaxError"];
    [DisplayTable "cohort_summary"];
    [ShowFigure "Avg Annual Revenue by Segment / Avg Gross Margin by Segment / Avg CAC by Segment / Avg Retention (Years) by Segment"];
    [ShowError "SyntaxError"];
    [DisplayTable "df[['Customer_ID', 'Segment', 'Annual_Revenue', 'Gross_Margin', 'Retention_Years', 'CLTV']].head()"];
    [ShowFigure "Average CLTV by Segment"];
    [ShowError "SyntaxError"];
    [DisplayTable "df[['Customer_ID', 'Segment', 'CLTV', 'CAC', 'CLTV_CAC_Ratio']].head()"];
    [ShowFigure "Avg CLTV:CAC Ratio by Segment"]
  ]
|}.

(** The GTM strategy and pricing notebook: [estimate_claude_cost(5, 2)] prints
    three lines and its value is the cell's result. *)
Definition gtm_pricing : notebook := {|
  title := "GTM Strategy & Pricing Analysis";
  cells := [
    [PrintLine "Input cost:  ${input_cost:,.2f}";
     PrintLine "Output cost: ${output_cost:,.2f}";
     PrintLine "Total:       ${total:,.2f}";
     DisplayValue "estimate_claude_cost(5, 2)"];
    []
  ]
|}.

(** The revenue-model notebook *)
Definition revenue_model : notebook := {|
  title := "04 - Unit Economics and Revenue Modeling";
  cells := [
    [PrintLine "Revenue for 3M tokens: ${revenue:.2f}";
     PrintLine "Cost for 3M tokens: ${cost:.2f}";
     PrintLine "Gross Margin: {gross_margin:.1f}%"];
    [PrintLine "Estimated annual revenue (1000 customers): ${annual_revenue/1e6:.1f}M"]
  ]
|}.

(** The notebooks that hold only markdown. *)
Definition market_overview : notebook :=
  {| title := "Market Overview: Anthropic"; cells := [] |}.

Definition product_tiering_strategy : notebook :=
  {| title := "Product Tiering & Monetization Strategy for Cohere"; cells := [] |}.

Definition strategic_gtm : notebook :=
  {| title := "Strategic GTM & Customer Segments"; cells := [] |}.

Definition notebooks : list notebook := [
  unit_economics; competitive_analysis; product_tiering; customer_profitability;
  market_overview; gtm_pricing; revenue_model; product_tiering_strategy;
  strategic_gtm
].

Definition effects (nb : notebook) : list effect := concat (cells nb).

(** The files a run leaves behind. *)
Definition written_files (nb : notebook) : list string :=
  flat_map (fun e => match e with SaveFigure path => [path] | _ => [] end) (effects nb).

(** Rendered in the notebook itself. *)
Definition inline (e : effect) : bool :=
  match e with
  | SaveFigure _ => false
  | _ => true
  end.

End Rendering.

(** ** A small instance of the library interface

    A deterministic stand-in for NumPy that obeys [NumLibLaws]; the statements
    that assume the laws are run on it. *)

Module Sample.
Import B64 Lib.

Definition draw {A : Type} (f : Z -> A) (n : nat) (g : Z) : list A * Z :=
  (map (fun i => f (g + Z.of_nat i)) (seq 0 n), g + Z.of_nat n).

Definition lib : NumLib := {|
  rng := Z;
  seed := fun s => s;
  random_choice := fun a n p =>
    draw (fun z => nth (Z.to_nat (z mod Z.of_nat (length a))) a "") n;
  random_normal := fun loc scale n =>
    draw (fun z => if Z.even z then loc else S754_zero false) n;
  random_uniform := fun lo hi n =>
    draw (fun z => if Z.even z then lo else hi) n;
  random_randint := fun lo hi n =>
    draw (fun z => lo + z mod (hi - lo)) n;
  mean := fun xs => fdiv (fold_left fadd xs (of_Z 0)) (of_Z (Z.of_nat (length xs)))
|}.

(** A two-customer table with one revenue and one acquisition cost below the
    bounds of the data-setup cell. *)
Definition small_table : CustomerProfitability.frame := {|
  CustomerProfitability.Customer_ID := [1; 2];
  CustomerProfitability.Segment := ["Startup"; "Enterprise"];
  CustomerProfitability.Annual_Revenue := [of_Z 12000; of_Z 95000];
  CustomerProfitability.Gross_Margin := [decimal 7 1; decimal 8 1];
  CustomerProfitability.CAC := [of_Z 21000; of_Z 3000];
  CustomerProfitability.Retention_Years := [2; 3];
  CustomerProfitability.CLTV := None;
  CustomerProfitability.CLTV_CAC_Ratio := None
|}.

Definition small_kernel : CustomerProfitability.kernel := {|
  CustomerProfitability.df := CustomerProfitability.clean small_table;
  CustomerProfitability.cohort_summary := None;
  CustomerProfitability.cltv_summary := None
|}.

(** The kernel after the data-setup cell when NumPy is the sample library. *)
Definition setup_kernel : CustomerProfitability.kernel := {|
  CustomerProfitability.df :=
    CustomerProfitability.clean
      (fst (CustomerProfitability.data (L := lib) (np_random_seed (L := lib) 42 0)));
  CustomerProfitability.cohort_summary := None;
  CustomerProfitability.cltv_summary := None
|}.

(** The small table once its CLTV column is there. *)
Definition small_kernel_cltv : CustomerProfitability.kernel :=
  match Py.outcome (CustomerProfitability.cell_cltv small_kernel) with
  | inr k => k
  | inl _ => small_kernel
  end.

(** A cohort whose payment equals its cost, so that its margin is zero. *)
Definition flat_cohort : UnitEconomics.cohort := {|
  UnitEconomics.name := "Flat";
  UnitEconomics.monthly_tokens := 0;
  UnitEconomics.fine_tune_tokens := 0;
  UnitEconomics.payment := 200;
  UnitEconomics.churn := decimal 5 2;
  UnitEconomics.count := 1
|}.

Definition flat_table : list (UnitEconomics.cohort * UnitEconomics.economics) :=
  match Py.outcome (UnitEconomics.join_economics [flat_cohort]) with
  | inr table => table
  | inl _ => []
  end.

(** The Indie cohort under another name, with another churn and head count. *)
Definition hobbyist : UnitEconomics.cohort := {|
  UnitEconomics.name := "Hobbyist";
  UnitEconomics.monthly_tokens := 500000;
  UnitEconomics.fine_tune_tokens := 0;
  UnitEconomics.payment := 0;
  UnitEconomics.churn := decimal 25 2;
  UnitEconomics.count := 3
|}.

(** The pricing dict of the tiering notebook without its Pro entry. *)
Definition pricing_without_pro : ProductTiering.dict Z := [
  ("Starter", 10); ("Growth", 250); ("Enterprise", 5000)
].

(** A stand-in for seaborn: what it draws records the data it was given and
    the state it resampled with. *)
Definition plots : PlotLib := {|
  bars := (list (string * float) * Z)%type;
  bootstrap_state := Z;
  barplot := fun x y b => (combine x y, b);
  not_a_column := fun name => Py.ValueError name
|}.

(** A cohort whose token count is beyond the range of a float. *)
Definition whale : UnitEconomics.cohort := {|
  UnitEconomics.name := "Whale";
  UnitEconomics.monthly_tokens := 10 ^ 400;
  UnitEconomics.fine_tune_tokens := 0;
  UnitEconomics.payment := 1500;
  UnitEconomics.churn := decimal 5 2;
  UnitEconomics.count := 1
|}.

End Sample.

(** * Properties *)

Import B64 Py Lib.

(** ** The monad *)

Lemma bind_value {A B : Type} (t : list event) (a : A) (k : A -> M B) :
  bind (t, inr a) k = (t ++ log (k a), outcome (k a)).
Proof. unfold bind, log, outcome. destruct (k a). reflexivity. Qed.

Lemma bind_ret {A B : Type} (a : A) (k : A -> M B) : bind (ret a) k = k a.
Proof. unfold ret. rewrite bind_value. destruct (k a). reflexivity. Qed.

Lemma outcome_bind {A B : Type} (m : M A) (k : A -> M B) (a : A) :
  outcome m = inr a -> outcome (bind m k) = outcome (k a).
Proof.
  destruct m as [t [e | a']]; cbn; intros Hm.
  - discriminate.
  - injection Hm as ->. destruct (k a). reflexivity.
Qed.

(** What holds of the log and of the outcome of each step holds of the
    whole. *)
Lemma bind_log_outcome {A B : Type} (P : event -> Prop) (E : exn) (m : M A) (k : A -> M B) :
  Forall P (log m) -> outcome m <> inl E ->
  (forall a, outcome m = inr a -> Forall P (log (k a)) /\ outcome (k a) <> inl E) ->
  Forall P (log (bind m k)) /\ outcome (bind m k) <> inl E.
Proof.
  destruct m as [t [e | a]]; cbn; intros Ht He Hk.
  - split; [exact Ht |]. intros H. apply He. injection H as ->. reflexivity.
  - destruct (Hk a eq_refl) as [H1 H2]. destruct (k a) as [t' r]. cbn in *.
    split; [apply Forall_app; split; assumption | exact H2].
Qed.

(** A conversion logs nothing, and a division by a divisor that is not zero
    logs itself; neither raises [ZeroDivisionError]. *)
Lemma to_float_quiet (P : event -> Prop) (v : pynum) :
  Forall P (log (to_float v)) /\ outcome (to_float v) <> inl ZeroDivisionError.
Proof.
  destruct v as [n | x]; cbn; [destruct (is_finite (of_Z n)) |]; cbn;
    split; try constructor; discriminate.
Qed.

Lemma truediv_guarded (a b : pynum) :
  num_is_zero b = false ->
  Forall (fun e => match e with
                   | TrueDiv _ den => num_is_zero den = false
                   | Printed _ => True
                   end)
         (log (truediv a b)) /\
  outcome (truediv a b) <> inl ZeroDivisionError.
Proof.
  intros Hb. split; [repeat constructor; exact Hb |].
  unfold truediv, outcome. cbn [snd].
  destruct a as [x | x], b as [y | y]; cbn [num_is_zero] in Hb.
  - rewrite Hb. destruct (is_finite _); discriminate.
  - cbn. destruct (is_finite (of_Z x)); cbn; [rewrite Hb |]; discriminate.
  - cbn. destruct (is_finite (of_Z y)); cbn; [rewrite Hb |]; discriminate.
  - cbn. rewrite Hb. discriminate.
Qed.

(** A row function that never raises maps the whole table. *)
Lemma apply_rows_total {A B : Type} (f : A -> M B) (g : A -> B) (rows : list A) :
  (forall r, outcome (f r) = inr (g r)) ->
  outcome (apply_rows f rows) = inr (map g rows).
Proof.
  intros Hf. induction rows as [| r rows IH].
  - reflexivity.
  - cbn [apply_rows map].
    rewrite (outcome_bind _ _ _ (Hf r)), (outcome_bind _ _ _ IH). reflexivity.
Qed.

(** ** Rounding never produces NaN *)

Lemma shr_1_nonneg (mrs : shr_record) : 0 <= shr_m mrs -> 0 <= shr_m (shr_1 mrs).
Proof.
  destruct mrs as [m r s]. cbn.
  destruct m as [| p | p]; cbn; try lia; destruct p; cbn; lia.
Qed.

Lemma iter_shr_1_nonneg (p : positive) (mrs : shr_record) :
  0 <= shr_m mrs -> 0 <= shr_m (iter_pos shr_1 p mrs).
Proof.
  revert mrs. induction p as [p IH | p IH |]; intros mrs Hm; cbn.
  - apply IH, IH, shr_1_nonneg, Hm.
  - apply IH, IH, Hm.
  - apply shr_1_nonneg, Hm.
Qed.

Lemma shr_nonneg (mrs : shr_record) (e n : Z) :
  0 <= shr_m mrs -> 0 <= shr_m (fst (shr mrs e n)).
Proof.
  intros Hm. destruct n; cbn; try assumption. apply iter_shr_1_nonneg, Hm.
Qed.

Lemma shr_record_of_loc_m (m : Z) (l : location) : shr_m (shr_record_of_loc m l) = m.
Proof. destruct l as [| []]; reflexivity. Qed.

Lemma round_nearest_even_nonneg (m : Z) (l : location) :
  0 <= m -> 0 <= round_nearest_even m l.
Proof.
  intros Hm. destruct l as [| []]; cbn; try lia. destruct (Z.even m); lia.
Qed.

Lemma shr_fexp_nonneg (m e : Z) (l : location) :
  0 <= m -> 0 <= shr_m (fst (shr_fexp prec emax m e l)).
Proof.
  intros Hm. unfold shr_fexp. apply shr_nonneg. rewrite shr_record_of_loc_m. exact Hm.
Qed.

(** The rounding step shared by every operation: from a mantissa that is not
    negative it builds a zero, a finite number or an infinity. *)
Lemma binary_round_aux_number (s : bool) (m e : Z) (l : location) :
  0 <= m -> is_nan (binary_round_aux prec emax s m e l) = false.
Proof.
  intros Hm. unfold binary_round_aux.
  pose proof (shr_fexp_nonneg m e l Hm) as H1.
  destruct (shr_fexp prec emax m e l) as [mrs' e'] eqn:E1. cbn [fst] in H1.
  pose proof (shr_fexp_nonneg (round_nearest_even (shr_m mrs') (loc_of_shr_record mrs')) e'
                loc_Exact (round_nearest_even_nonneg _ _ H1)) as H2.
  destruct (shr_fexp prec emax _ e' loc_Exact) as [mrs'' e''] eqn:E2. cbn [fst] in H2.
  destruct (shr_m mrs'') as [| p | p]; try reflexivity.
  - destruct (e'' <=? emax - prec); reflexivity.
  - lia.
Qed.

Lemma binary_normalize_number (m e : Z) (s : bool) :
  is_nan (binary_normalize prec emax m e s) = false.
Proof.
  destruct m as [| p | p]; cbn [binary_normalize]; try reflexivity;
    unfold binary_round; destruct (shl_align _ _ _); apply binary_round_aux_number; lia.
Qed.

Lemma of_Z_number (n : Z) : is_nan (of_Z n) = false.
Proof. apply binary_normalize_number. Qed.

Lemma fmul_number (x : float) (s : bool) (m : positive) (e : Z) :
  is_nan x = false -> is_nan (fmul x (S754_finite s m e)) = false.
Proof.
  destruct x as [sx | sx | | sx mx ex]; intros Hx; try reflexivity; try discriminate.
  apply binary_round_aux_number. lia.
Qed.

Lemma fdiv_number (x : float) (s : bool) (m : positive) (e : Z) :
  is_nan x = false -> is_nan (fdiv x (S754_finite s m e)) = false.
Proof.
  destruct x as [sx | sx | | sx mx ex]; intros Hx; try reflexivity; try discriminate.
  unfold fdiv, SFdiv, SFdiv_core_binary.
  set (shift := ex - e - _).
  set (dividend := match shift with Z0 => Z.pos mx | Z.pos _ => Z.shiftl (Z.pos mx) shift | Z.neg _ => 0 end).
  assert (Hd : 0 <= dividend).
  { unfold dividend. destruct shift; try lia. apply Z.shiftl_nonneg. lia. }
  pose proof (Z.div_pos dividend (Z.pos m) Hd ltac:(lia)) as Hq.
  unfold Z.div in Hq. destruct (Z.div_eucl dividend (Z.pos m)) as [q r]. cbn [fst] in Hq.
  apply binary_round_aux_number, Hq.
Qed.

Lemma rint_number (x : float) : is_nan x = false -> is_nan (rint x) = false.
Proof.
  destruct x as [s | s | | s m e]; intros Hx; try reflexivity; try discriminate.
  unfold rint. destruct (0 <=? e); [reflexivity |].
  destruct (shr _ e (- e)) as [mrs e'].
  destruct (round_nearest_even _ _); try reflexivity; apply binary_normalize_number.
Qed.

(** [.round(2)] of a number is a number. *)
Lemma round2_number (x : float) : is_nan x = false -> is_nan (round2 x) = false.
Proof.
  intros Hx. unfold round2.
  change (of_Z 100) with (S754_finite false 7036874417766400 (-46)).
  apply fdiv_number, rint_number, fmul_number, Hx.
Qed.

Example round2_half_even :
  round2 (decimal 2675 3) = decimal 268 2 /\
  round2 (decimal 12345678 4) = decimal 123457 2 /\
  round2 (decimal (-4) 3) = S754_zero true.
Proof. repeat split; vm_compute; reflexivity. Qed.

(** ** Integers that fit a float *)

Lemma digits2_pos_size (p : positive) : digits2_pos p = Pos.size p.
Proof. induction p as [p IH | p IH |]; cbn; [rewrite IH | rewrite IH |]; reflexivity. Qed.

Lemma Zdigits2_nonneg (m : Z) : 0 <= Zdigits2 m.
Proof. destruct m; cbn; lia. Qed.

(** A mantissa below [2^k] has at most [k] binary digits, and conversely. *)
Lemma Zdigits2_le (m k : Z) : 0 <= k -> 0 <= m < 2 ^ k -> Zdigits2 m <= k.
Proof.
  intros Hk [Hm Hlt]. destruct m as [| p | p]; cbn; try lia.
  rewrite digits2_pos_size.
  pose proof (Pos.size_le p) as Hs.
  apply Pos2Z.pos_le_pos in Hs. rewrite Pos2Z.inj_pow in Hs.
  change (Z.pos p~0) with (2 * Z.pos p) in Hs.
  assert (H : 2 ^ Z.pos (Pos.size p) < 2 ^ (k + 1)).
  { rewrite Z.pow_add_r by lia. change (2 ^ 1) with 2. lia. }
  apply Z.pow_lt_mono_r_iff in H; lia.
Qed.

Lemma Zdigits2_gt (m : Z) : 0 <= m -> m < 2 ^ Zdigits2 m.
Proof.
  intros Hm. destruct m as [| p | p]; cbn; try lia.
  rewrite digits2_pos_size.
  pose proof (Pos.size_gt p) as Hs.
  apply Pos2Z.pos_lt_pos in Hs. rewrite Pos2Z.inj_pow in Hs. exact Hs.
Qed.

Lemma shr_1_below (mrs : shr_record) (k : Z) :
  0 <= k -> 0 <= shr_m mrs < 2 ^ k -> 0 <= shr_m (shr_1 mrs) < 2 ^ Z.max 0 (k - 1).
Proof.
  intros Hk [Hm Hlt]. destruct mrs as [m r s]. cbn in *.
  destruct (Z.eq_dec k 0) as [-> | Hk0].
  - cbn in Hlt. assert (m = 0) by lia. subst m. cbn. lia.
  - replace (Z.max 0 (k - 1)) with (k - 1) by lia.
    replace k with ((k - 1) + 1) in Hlt by lia.
    rewrite Z.pow_add_r in Hlt by lia. change (2 ^ 1) with 2 in Hlt.
    assert (0 < 2 ^ (k - 1)) by (apply Z.pow_pos_nonneg; lia).
    destruct m as [| p | p]; cbn; try lia; destruct p; cbn; lia.
Qed.

Lemma iter_shr_1_below (p : positive) (mrs : shr_record) (k : Z) :
  0 <= k -> 0 <= shr_m mrs < 2 ^ k ->
  0 <= shr_m (iter_pos shr_1 p mrs) < 2 ^ Z.max 0 (k - Z.pos p).
Proof.
  revert mrs k. induction p as [p IH | p IH |]; intros mrs k Hk Hm; cbn [iter_pos].
  - apply shr_1_below in Hm; [| exact Hk].
    apply IH in Hm; [| lia]. apply IH in Hm; [| lia].
    replace (Z.max 0 (k - Z.pos p~1))
      with (Z.max 0 (Z.max 0 (Z.max 0 (k - 1) - Z.pos p) - Z.pos p)) by lia.
    exact Hm.
  - apply IH in Hm; [| exact Hk]. apply IH in Hm; [| lia].
    replace (Z.max 0 (k - Z.pos p~0))
      with (Z.max 0 (Z.max 0 (k - Z.pos p) - Z.pos p)) by lia.
    exact Hm.
  - apply shr_1_below; assumption.
Qed.

(** The shift that brings a mantissa to 53 digits: what is left is below
    [2^53], and the exponent is the larger of the old one and the one the
    format asks for. *)
Lemma shr_fexp_below (m e : Z) (l : location) :
  0 <= m ->
  0 <= shr_m (fst (shr_fexp prec emax m e l)) < 2 ^ 53 /\
  snd (shr_fexp prec emax m e l) = Z.max e (Z.max (Zdigits2 m + e - 53) (-1074)).
Proof.
  intros Hm. unfold shr_fexp, shr, fexp, emin, prec, emax.
  pose proof (Zdigits2_nonneg m) as Hd.
  pose proof (Zdigits2_gt m Hm) as Hlt.
  change (3 - 1024 - 53) with (-1074).
  destruct (Z.max (Zdigits2 m + e - 53) (-1074) - e) as [| p | p] eqn:Hn; cbn [fst snd].
  - rewrite shr_record_of_loc_m. split; [| lia].
    split; [exact Hm |]. eapply Z.lt_le_trans; [exact Hlt |].
    apply Z.pow_le_mono_r; lia.
  - split; [| lia].
    pose proof (iter_shr_1_below p (shr_record_of_loc m l) (Zdigits2 m) Hd) as H.
    rewrite shr_record_of_loc_m in H. specialize (H (conj Hm Hlt)).
    split; [apply H |]. eapply Z.lt_le_trans; [apply H |].
    apply Z.pow_le_mono_r; lia.
  - rewrite shr_record_of_loc_m. split; [| lia].
    split; [exact Hm |]. eapply Z.lt_le_trans; [exact Hlt |].
    apply Z.pow_le_mono_r; lia.
Qed.

Lemma round_nearest_even_below (m : Z) (l : location) :
  0 <= m -> 0 <= round_nearest_even m l <= m + 1.
Proof.
  intros Hm. destruct l as [| []]; cbn; try lia. destruct (Z.even m); lia.
Qed.

(** The rounding step gives a zero or a finite number when the value it
    rounds is below [2^1023]. *)
Lemma binary_round_aux_finite (s : bool) (m e : Z) (l : location) :
  0 <= m -> e <= 970 -> Zdigits2 m + e <= 1023 ->
  is_finite (binary_round_aux prec emax s m e l) = true.
Proof.
  intros Hm He Hd. unfold binary_round_aux.
  pose proof (shr_fexp_below m e l Hm) as [H1 E1].
  destruct (shr_fexp prec emax m e l) as [mrs' e']. cbn [fst snd] in H1, E1.
  pose proof (round_nearest_even_below (shr_m mrs') (loc_of_shr_record mrs') (proj1 H1)) as Hr.
  set (m2 := round_nearest_even (shr_m mrs') (loc_of_shr_record mrs')) in *.
  pose proof (shr_fexp_below m2 e' loc_Exact (proj1 Hr)) as [H2 E2].
  assert (Hd2 : Zdigits2 m2 <= 54).
  { apply Zdigits2_le; [lia |]. split; [apply Hr |].
    change (2 ^ 54) with (2 * 2 ^ 53). lia. }
  destruct (shr_fexp prec emax m2 e' loc_Exact) as [mrs'' e'']. cbn [fst snd] in H2, E2.
  destruct (shr_m mrs'') as [| p | p]; try reflexivity.
  - replace (e'' <=? emax - prec) with true; [reflexivity |].
    symmetry. apply Z.leb_le. unfold emax, prec. lia.
  - lia.
Qed.

Lemma digits2_pos_iter_xO (m d : positive) :
  Z.pos (digits2_pos (Pos.iter xO m d)) = Z.pos (digits2_pos m) + Z.pos d.
Proof.
  induction d as [| d IH] using Pos.peano_ind.
  - cbn. lia.
  - rewrite Pos.iter_succ. cbn [digits2_pos]. lia.
Qed.

Lemma binary_round_finite (s : bool) (m : positive) :
  Z.pos m < 2 ^ 1023 -> is_finite (binary_round prec emax s m 0) = true.
Proof.
  intros Hm. unfold binary_round, shl_align.
  assert (Hd : Z.pos (digits2_pos m) <= 1023).
  { apply (Zdigits2_le (Z.pos m)); lia. }
  assert (Hf : fexp prec emax (Z.pos (digits2_pos m) + 0) =
               Z.max (Z.pos (digits2_pos m) - 53) (-1074)).
  { unfold fexp, emin, prec, emax. lia. }
  rewrite Hf.
  destruct (Z.max (Z.pos (digits2_pos m) - 53) (-1074) - 0) as [| d | d] eqn:Hn.
  - apply binary_round_aux_finite; cbn [Zdigits2]; lia.
  - apply binary_round_aux_finite; cbn [Zdigits2]; lia.
  - apply binary_round_aux_finite; cbn [Zdigits2]; try lia.
    rewrite digits2_pos_iter_xO. lia.
Qed.

(** [float(n)] does not overflow for an integer below [2^1023] in magnitude. *)
Lemma of_Z_finite (n : Z) : in_float_range n -> is_finite (of_Z n) = true.
Proof.
  unfold in_float_range. intros Hn. destruct n as [| p | p]; [reflexivity | |];
    apply binary_round_finite; lia.
Qed.

(** Nor does the quotient of such an integer by an integer that is not zero. *)
Lemma int_truediv_finite (a b : Z) :
  in_float_range a -> b <> 0 -> is_finite (int_truediv a b) = true.
Proof.
  unfold in_float_range. intros Ha Hb. unfold int_truediv.
  destruct (Z.eq_dec a 0) as [-> | Ha0]; [reflexivity |].
  assert (E : forall X Y : float, a <> 0 -> match a with 0 => X | _ => Y end = Y)
    by (intros; destruct a; congruence).
  rewrite E by exact Ha0. clear E.
  unfold SFdiv_core_binary.
  set (e' := Z.min _ (0 - 0)).
  assert (He : e' <= 0) by (unfold e'; lia).
  set (s := 0 - 0 - e').
  set (m' := match s with 0 => Z.abs a | Z.pos _ => Z.shiftl (Z.abs a) s | Z.neg _ => 0 end).
  assert (Hm' : 0 <= m' < 2 ^ (1023 - e')).
  { unfold m'. destruct s as [| p | p] eqn:Hs.
    - replace e' with 0 by lia. lia.
    - rewrite Z.shiftl_mul_pow2 by lia.
      replace (1023 - e') with (1023 + Z.pos p) by lia.
      rewrite Z.pow_add_r by lia.
      assert (0 < 2 ^ Z.pos p) by (apply Z.pow_pos_nonneg; lia).
      nia.
    - lia. }
  pose proof (Z.div_pos m' (Z.abs b) (proj1 Hm') ltac:(lia)) as Hq.
  pose proof (Z.mul_div_le m' (Z.abs b) ltac:(lia)) as Hle.
  unfold Z.div in Hq, Hle. destruct (Z.div_eucl m' (Z.abs b)) as [q r]. cbn [fst] in Hq, Hle.
  apply binary_round_aux_finite; [exact Hq | lia |].
  assert (Zdigits2 q <= 1023 - e'); [| lia].
  apply Zdigits2_le; [lia |]. split; [exact Hq |]. nia.
Qed.

Lemma int64_in_float_range (n : Z) : - 2 ^ 63 <= n < 2 ^ 63 -> in_float_range n.
Proof.
  intros Hn. unfold in_float_range.
  assert (2 ^ 63 < 2 ^ 1023) by (apply Z.pow_lt_mono_r; lia). lia.
Qed.

Lemma to_float_int (n : Z) : in_float_range n -> to_float (PyInt n) = ret (of_Z n).
Proof. intros Hn. unfold to_float. rewrite (of_Z_finite n Hn). reflexivity. Qed.

(** Beyond the range the conversion and the division do raise. *)
Example to_float_overflow :
  to_float (PyInt (10 ^ 400)) = raise (OverflowError "int too large to convert to float") /\
  outcome (truediv (PyInt (10 ^ 400)) (PyInt 1000)) =
    inl (OverflowError "integer division result too large for a float") /\
  outcome (truediv (PyFloat (of_Z 3)) (PyInt (10 ^ 400))) =
    inl (OverflowError "int too large to convert to float") /\
  outcome (truediv (PyInt (10 ^ 400)) (PyInt (10 ^ 399))) = inr (of_Z 10).
Proof. repeat split; vm_compute; reflexivity. Qed.

(** ** Literals are what they read *)

Example decimal_200_5_exact : is_exactly (decimal 2005 1) 401 2 = true.
Proof. reflexivity. Qed.

Example decimal_0_001_nearest :
  decimal 1 3 = S754_finite false 4611686018427388 (-62).
Proof. reflexivity. Qed.

Example decimal_1_5_exact : is_exactly (decimal 15 1) 3 2 = true.
Proof. reflexivity. Qed.

Example of_Z_exact : is_exactly (of_Z 23950) 23950 1 = true.
Proof. reflexivity. Qed.

(** ** Unit economics *)

Section UnitEconomicsFacts.
Import UnitEconomics.

Lemma truediv_by_1000 (n : Z) :
  in_float_range n ->
  truediv (PyInt n) (PyInt 1000) =
  ([TrueDiv (PyInt n) (PyInt 1000)], inr (int_truediv n 1000)).
Proof.
  intros Hn. unfold truediv. cbn [Z.eqb].
  rewrite (int_truediv_finite n 1000 Hn) by lia. reflexivity.
Qed.

Lemma truediv_by_payment (x : float) (p : Z) :
  p > 0 -> in_float_range p ->
  truediv (PyFloat x) (PyInt p) =
  ([TrueDiv (PyFloat x) (PyInt p)], inr (fdiv x (of_Z p))).
Proof.
  intros Hp Hr. unfold truediv. rewrite (to_float_int p Hr).
  cbn [to_float outcome ret snd num_is_zero].
  replace (p =? 0) with false by (symmetry; apply Z.eqb_neq; lia).
  reflexivity.
Qed.

(** The whole behaviour of the row function on a row in range: its log and
    its result. *)
Lemma calculate_unit_economics_eq (row : cohort) :
  row_in_float_range row ->
  calculate_unit_economics row =
  ([TrueDiv (PyInt (monthly_tokens row)) (PyInt 1000);
    TrueDiv (PyInt (fine_tune_tokens row)) (PyInt 1000)]
   ++ (if payment row >? 0
       then [TrueDiv (PyFloat (fsub (of_Z (payment row)) (total_cost_formula row)))
                     (PyInt (payment row))]
       else []),
   inr {| total_cost := total_cost_formula row;
          margin := fsub (of_Z (payment row)) (total_cost_formula row);
          gross_margin_pct :=
            if payment row >? 0
            then fmul (fdiv (fsub (of_Z (payment row)) (total_cost_formula row))
                            (of_Z (payment row)))
                      (of_Z 100)
            else of_Z 0 |}).
Proof.
  intros (Hm & Hf & Hp). unfold calculate_unit_economics.
  rewrite (truediv_by_1000 _ Hm), bind_value.
  rewrite (truediv_by_1000 _ Hf), bind_value.
  change (to_float (PyInt (support_cost_per_customer assumptions))) with (ret (of_Z 200)).
  rewrite bind_ret, (to_float_int _ Hp), bind_ret.
  fold (total_cost_formula row).
  destruct (payment row >? 0) eqn:Hpay.
  - rewrite truediv_by_payment by (try exact Hp; lia). reflexivity.
  - reflexivity.
Qed.

(** Whatever the row, every division the function evaluates has a divisor
    that is not zero, and what it may raise is not [ZeroDivisionError]. *)
Lemma calculate_unit_economics_guarded (row : cohort) :
  Forall (fun e => match e with
                   | TrueDiv _ den => num_is_zero den = false
                   | Printed _ => True
                   end)
         (log (calculate_unit_economics row)) /\
  outcome (calculate_unit_economics row) <> inl ZeroDivisionError.
Proof.
  unfold calculate_unit_economics.
  apply bind_log_outcome;
    [apply truediv_guarded; reflexivity | apply truediv_guarded; reflexivity |].
  intros per_1k _.
  apply bind_log_outcome;
    [apply truediv_guarded; reflexivity | apply truediv_guarded; reflexivity |].
  intros ft_per_1k _.
  apply bind_log_outcome; [apply to_float_quiet | apply (to_float_quiet (fun _ => True)) |].
  intros support_cost _.
  apply bind_log_outcome; [apply to_float_quiet | apply (to_float_quiet (fun _ => True)) |].
  intros payment_as_float _.
  set (margin := fsub payment_as_float _).
  assert (Hif : Forall (fun e => match e with
                                 | TrueDiv _ den => num_is_zero den = false
                                 | Printed _ => True
                                 end)
                       (log (if payment row >? 0
                             then bind (truediv (PyFloat margin) (PyInt (payment row)))
                                       (fun ratio => ret (PyFloat (fmul ratio (of_Z 100))))
                             else ret (PyInt 0))) /\
                outcome (if payment row >? 0
                         then bind (truediv (PyFloat margin) (PyInt (payment row)))
                                   (fun ratio => ret (PyFloat (fmul ratio (of_Z 100))))
                         else ret (PyInt 0)) <> inl ZeroDivisionError).
  { destruct (payment row >? 0) eqn:Hpay; [| split; [constructor | discriminate]].
    assert (Hnz : num_is_zero (PyInt (payment row)) = false).
    { apply Z.eqb_neq. apply Z.gtb_lt in Hpay. lia. }
    apply bind_log_outcome;
      [apply truediv_guarded, Hnz | apply truediv_guarded, Hnz |].
    intros ratio _. split; [constructor | discriminate]. }
  apply bind_log_outcome; [apply Hif | apply Hif |].
  intros pct _.
  apply bind_log_outcome; [apply to_float_quiet | apply (to_float_quiet (fun _ => True)) |].
  intros x _. split; [constructor | discriminate].
Qed.

(** The same on every row of any table of cohorts in range, joined to its
    row. *)
Lemma join_economics_rows (rows : list cohort) :
  Forall row_in_float_range rows ->
  exists table : list (cohort * economics),
    outcome (join_economics rows) = inr table /\
    map fst table = rows /\
    Forall (fun r => total_cost (snd r) = total_cost_formula (fst r) /\
                     margin (snd r) = fsub (of_Z (payment (fst r))) (total_cost (snd r)))
           table.
Proof.
  intros Hrange.
  pose (g := fun row =>
          {| total_cost := total_cost_formula row;
             margin := fsub (of_Z (payment row)) (total_cost_formula row);
             gross_margin_pct :=
               if payment row >? 0
               then fmul (fdiv (fsub (of_Z (payment row)) (total_cost_formula row))
                               (of_Z (payment row)))
                         (of_Z 100)
               else of_Z 0 |}).
  exists (combine rows (map g rows)). split; [| split].
  - unfold join_economics.
    rewrite (outcome_bind _ _ (map g rows)); [reflexivity |].
    clear -Hrange. induction Hrange as [| r rows Hr _ IH]; [reflexivity |].
    cbn [apply_rows map].
    rewrite (outcome_bind _ _ (g r)), (outcome_bind _ _ _ IH); [reflexivity |].
    rewrite (calculate_unit_economics_eq r Hr). reflexivity.
  - clear. induction rows as [| r rows IH]; cbn; [reflexivity | now rewrite IH].
  - clear. induction rows as [| r rows IH]; cbn; constructor; [split; reflexivity | exact IH].
Qed.

(** C1. For every cohort row whose token counts and payment are in the range
    of a float (below 2^1023 in magnitude, as the cells of an int64 column
    are) [calculate_unit_economics] returns, without raising,
    [total_cost = (monthly_tokens / 1000) * 0.001 +
    (fine_tune_tokens / 1000) * 1.5 + 200] and [margin = payment - total_cost];
    on the three cohorts of the notebook (Indie, SMB, Enterprise) the total
    costs are 200.5, 285.0, 1050.0 and the margins -200.5, 1215.0, 23950.0. *)
Theorem unit_economics_cost_and_margin :
  (forall row : cohort,
     row_in_float_range row ->
     exists res : economics,
       outcome (calculate_unit_economics row) = inr res /\
       total_cost res = total_cost_formula row /\
       margin res = fsub (of_Z (payment row)) (total_cost res)) /\
  (exists table : list (cohort * economics),
     outcome cohorts_joined = inr table /\
     map (fun r => name (fst r)) table = ["Indie"; "SMB"; "Enterprise"] /\
     map (fun r => total_cost (snd r)) table = [decimal 2005 1; of_Z 285; of_Z 1050] /\
     map (fun r => margin (snd r)) table = [decimal (-2005) 1; of_Z 1215; of_Z 23950]).
Proof.
  split.
  - intros row Hrange. rewrite (calculate_unit_economics_eq row Hrange).
    eexists. split; [reflexivity |]. split; reflexivity.
  - eexists. split; [vm_compute; reflexivity |].
    repeat split; vm_compute; reflexivity.
Qed.

Lemma unit_economics_cost_and_margin_witness :
  row_in_float_range enterprise /\
  exists res : economics,
    outcome (calculate_unit_economics enterprise) = inr res /\
    total_cost res = total_cost_formula enterprise /\
    margin res = fsub (of_Z (payment enterprise)) (total_cost res).
Proof.
  assert (H : row_in_float_range enterprise) by (repeat split).
  split; [exact H |].
  exact (proj1 unit_economics_cost_and_margin enterprise H).
Defined.

(** A row beyond the range does not return: Python raises [OverflowError] at
    the first division. *)
Example unit_economics_overflow :
  ~ row_in_float_range Sample.whale /\
  calculate_unit_economics Sample.whale =
    ([TrueDiv (PyInt (10 ^ 400)) (PyInt 1000)],
     inl (OverflowError "integer division result too large for a float")).
Proof.
  split.
  - intros (H & _). vm_compute in H. discriminate H.
  - vm_compute. reflexivity.
Qed.

(** C2. On a row in the range of a float the margin percentage is
    [(margin / payment) * 100], with that division evaluated, only when
    [payment > 0]; otherwise it is 0 and the function evaluates no division by
    [payment]: the only divisions it logs are the two by 1000.  So it is for
    the Indie cohort, whose payment is 0. *)
Theorem gross_margin_pct_guarded :
  (forall row : cohort,
     row_in_float_range row ->
     payment row > 0 ->
     exists res : economics,
       outcome (calculate_unit_economics row) = inr res /\
       gross_margin_pct res =
         fmul (fdiv (margin res) (of_Z (payment row))) (of_Z 100) /\
       In (TrueDiv (PyFloat (margin res)) (PyInt (payment row)))
          (log (calculate_unit_economics row))) /\
  (forall row : cohort,
     row_in_float_range row ->
     payment row <= 0 ->
     exists res : economics,
       outcome (calculate_unit_economics row) = inr res /\
       gross_margin_pct res = of_Z 0 /\
       log (calculate_unit_economics row) =
         [TrueDiv (PyInt (monthly_tokens row)) (PyInt 1000);
          TrueDiv (PyInt (fine_tune_tokens row)) (PyInt 1000)]) /\
  (exists res : economics,
     In indie cohorts /\
     payment indie = 0 /\
     outcome (calculate_unit_economics indie) = inr res /\
     gross_margin_pct res = of_Z 0).
Proof.
  split; [| split];
    try (intros row Hrange Hpay; rewrite (calculate_unit_economics_eq row Hrange)).
  - replace (payment row >? 0) with true by (symmetry; apply Z.gtb_lt; lia).
    eexists. split; [reflexivity |]. split; [reflexivity |].
    right; right; left; reflexivity.
  - replace (payment row >? 0) with false
      by (symmetry; rewrite Z.gtb_ltb; apply Z.ltb_ge; lia).
    eexists. repeat split; reflexivity.
  - eexists. split; [left; reflexivity |]. repeat split; vm_compute; reflexivity.
Qed.

(** The percentages the notebook shows for the paying cohorts, 81.0 and 95.8. *)
Example gross_margin_pct_values :
  exists table : list (cohort * economics),
    outcome cohorts_joined = inr table /\
    map (fun r => gross_margin_pct (snd r)) table = [of_Z 0; of_Z 81; decimal 958 1].
Proof. eexists. split; vm_compute; reflexivity. Qed.

(** With a plain sum-and-divide mean the average margin of the three cohorts
    is 8321.5, far above the acquisition cost of 400: the printed break-even
    point rounds to 0.0. *)
Example breakeven_of_cohorts :
  exists table : list (cohort * economics),
    outcome cohorts_joined = inr table /\
    avg_monthly_margin (L := Sample.lib) table = decimal 83215 1 /\
    breakeven_customers (L := Sample.lib) table = fdiv (of_Z 400) (decimal 83215 1).
Proof. eexists. repeat split; vm_compute; reflexivity. Qed.

Lemma gross_margin_pct_guarded_witness :
  (row_in_float_range smb /\
   payment smb > 0 /\
   exists res : economics,
     outcome (calculate_unit_economics smb) = inr res /\
     gross_margin_pct res =
       fmul (fdiv (margin res) (of_Z (payment smb))) (of_Z 100) /\
     In (TrueDiv (PyFloat (margin res)) (PyInt (payment smb)))
        (log (calculate_unit_economics smb))) /\
  (row_in_float_range indie /\
   payment indie <= 0 /\
   exists res : economics,
     outcome (calculate_unit_economics indie) = inr res /\
     gross_margin_pct res = of_Z 0 /\
     log (calculate_unit_economics indie) =
       [TrueDiv (PyInt (monthly_tokens indie)) (PyInt 1000);
        TrueDiv (PyInt (fine_tune_tokens indie)) (PyInt 1000)]).
Proof.
  assert (Hsmb : row_in_float_range smb) by (repeat split).
  assert (Hindie : row_in_float_range indie) by (repeat split).
  split; split; [exact Hsmb | | exact Hindie |].
  - split; [reflexivity |].
    apply (proj1 gross_margin_pct_guarded smb Hsmb). reflexivity.
  - split; [discriminate |].
    apply (proj1 (proj2 gross_margin_pct_guarded) indie Hindie). discriminate.
Defined.

End UnitEconomicsFacts.

(** ** The revenue model *)

Section RevenueModelFacts.
Import RevenueModel.

(** C10. With prices of 30 and 60 and compute costs of 6 and 12 dollars per
    million input and output tokens, and 3 million tokens split 2:1, the
    computed revenue is exactly 120, the cost exactly 24 and the gross margin
    exactly 80 percent; with 1000 customers at 100M tokens a month on the same
    split the annual revenue is exactly 48 000 000, printed as 48.0 millions.
    None of the divisions raises. *)
Theorem revenue_model_exact :
  (price_input_per_million, price_output_per_million) = (30, 60) /\
  (cost_input_per_million, cost_output_per_million) = (6, 12) /\
  input_tokens + output_tokens = 3000000 /\
  input_tokens = 2 * output_tokens /\
  returns_exactly revenue 120 1 /\
  returns_exactly cost 24 1 /\
  returns_exactly gross_margin 80 1 /\
  returns_exactly annual_revenue 48000000 1 /\
  returns_exactly annual_revenue_millions 48 1.
Proof.
  repeat split; try reflexivity;
    (eexists; split; [vm_compute; reflexivity | vm_compute; reflexivity]).
Qed.

(** The same values as floats: the integers 120, 24, 80 and 48 themselves. *)
Lemma revenue_model_values :
  outcome revenue = inr (of_Z 120) /\
  outcome cost = inr (of_Z 24) /\
  outcome gross_margin = inr (of_Z 80) /\
  outcome annual_revenue_millions = inr (of_Z 48).
Proof. repeat split; vm_compute; reflexivity. Qed.

(** The two thirds of the second cell are not exact, but the rounding of the
    two products absorbs the error. *)
Lemma two_thirds_inexact :
  is_exactly (int_truediv 2 3) 2 3 = false /\
  fmul (int_truediv 2 3) (of_Z 30) = of_Z 20 /\
  fmul (int_truediv 1 3) (of_Z 60) = of_Z 20.
Proof. repeat split; vm_compute; reflexivity. Qed.

End RevenueModelFacts.

(** The example call of the pricing notebook prints its three lines and shows
    270. *)
Example estimate_claude_cost_example :
  PricingSimulation.estimate_claude_cost 5 2 =
  ([Printed "Input cost:  $150.00"; Printed "Output cost: $120.00";
    Printed "Total:       $270.00"],
   inr 270).
Proof. vm_compute. reflexivity. Qed.

(** On amounts in the range of a float the three lines are printed and the
    total is returned. *)
Lemma format_comma_2f_returns (n : Z) :
  in_float_range n -> exists shown : string, format_comma_2f n = ret shown.
Proof.
  intros Hn. unfold format_comma_2f. rewrite (to_float_int n Hn), bind_ret.
  eexists. reflexivity.
Qed.

Lemma estimate_claude_cost_returns (a c : Z) :
  in_float_range (a * 30) -> in_float_range (c * 60) -> in_float_range (a * 30 + c * 60) ->
  outcome (PricingSimulation.estimate_claude_cost a c) = inr (a * 30 + c * 60) /\
  exists shown_input shown_output shown_total : string,
    format_comma_2f (a * 30) = ret shown_input /\
    format_comma_2f (c * 60) = ret shown_output /\
    format_comma_2f (a * 30 + c * 60) = ret shown_total /\
    log (PricingSimulation.estimate_claude_cost a c) =
      [Printed (String.append "Input cost:  $" shown_input);
       Printed (String.append "Output cost: $" shown_output);
       Printed (String.append "Total:       $" shown_total)].
Proof.
  intros Ha Hc Hsum.
  destruct (format_comma_2f_returns _ Ha) as [s1 H1].
  destruct (format_comma_2f_returns _ Hc) as [s2 H2].
  destruct (format_comma_2f_returns _ Hsum) as [s3 H3].
  unfold PricingSimulation.estimate_claude_cost.
  rewrite H1, bind_ret. unfold print at 1. rewrite bind_value.
  rewrite H2, bind_ret. unfold print at 1. rewrite bind_value.
  rewrite H3, bind_ret. unfold print at 1. rewrite bind_value.
  cbn [log outcome fst snd ret app].
  split; [reflexivity |].
  exists s1, s2, s3. repeat split; reflexivity.
Qed.

(** Whenever it returns, it returns the total. *)
Lemma estimate_claude_cost_value (a c x : Z) :
  outcome (PricingSimulation.estimate_claude_cost a c) = inr x -> x = a * 30 + c * 60.
Proof.
  unfold PricingSimulation.estimate_claude_cost, print.
  destruct (format_comma_2f (a * 30)) as [t1 [e1 | s1]]; [discriminate |].
  rewrite bind_value, bind_value.
  destruct (format_comma_2f (c * 60)) as [t2 [e2 | s2]]; [cbn; discriminate |].
  rewrite bind_value, bind_value.
  destruct (format_comma_2f (a * 30 + c * 60)) as [t3 [e3 | s3]]; [cbn; discriminate |].
  rewrite bind_value, bind_value. cbn. intros H. injection H as <-. reflexivity.
Qed.

(** ** Columns *)

Lemma nth_error_zip_with {A B C : Type} (f : A -> B -> C) (xs : list A) (ys : list B) (i : nat) :
  nth_error (zip_with f xs ys) i =
  match nth_error xs i, nth_error ys i with
  | Some x, Some y => Some (f x y)
  | _, _ => None
  end.
Proof.
  revert ys i. induction xs as [| x xs IH]; intros ys i.
  - destruct i; reflexivity.
  - destruct ys as [| y ys].
    + destruct i; cbn; [reflexivity |]. destruct (nth_error xs i); reflexivity.
    + destruct i; cbn; [reflexivity |]. apply IH.
Qed.

Lemma length_zip_with {A B C : Type} (f : A -> B -> C) (xs : list A) (ys : list B) :
  length (zip_with f xs ys) = Nat.min (length xs) (length ys).
Proof. unfold zip_with. rewrite length_map. apply length_combine. Qed.

(** ** Product tiering *)

Section ProductTieringFacts.
Import ProductTiering.

Lemma wrap64_small (z : Z) : - 2 ^ 63 <= z < 2 ^ 63 -> wrap64 z = z.
Proof.
  intros Hz. unfold wrap64.
  rewrite Z.mod_small by lia. lia.
Qed.

Lemma wrap64_twice_small (z : Z) :
  - 2 ^ 63 <= z < 2 ^ 63 -> - 2 ^ 63 <= z * 12 < 2 ^ 63 ->
  wrap64 (wrap64 z * 12) = z * 12.
Proof. intros Hz H12. rewrite (wrap64_small z Hz). apply wrap64_small, H12. Qed.

(** Prices that are all known stay an int64 column. *)
Lemma Series_map_int64 (d : dict Z) (keys : list string) :
  (forall k, In k keys -> exists v, dict_get d k = Some v) ->
  Series_map d keys =
  Int64 (map (fun k => match dict_get d k with Some v => v | None => 0 end) keys).
Proof.
  intros Hall. unfold Series_map.
  rewrite (proj2 (forallb_forall _ _)).
  - rewrite map_map. reflexivity.
  - intros o Ho. apply in_map_iff in Ho. destruct Ho as [k [<- Hk]].
    destruct (Hall k Hk) as [v ->]. reflexivity.
Qed.

(** For any two dicts in which every tier has a price, row [i] of the built
    table holds the int64 products. *)
Lemma build_revenue (customers pricing : dict Z) (i : nat) (tier : string) (num price : Z) :
  (forall k, In k (map fst customers) -> exists v, dict_get pricing k = Some v) ->
  nth_error customers i = Some (tier, num) ->
  dict_get pricing tier = Some price ->
  cell (Monthly_Revenue (build customers pricing)) i = Some (wrap64 (num * price)) /\
  cell (Annual_Revenue (build customers pricing)) i = Some (wrap64 (wrap64 (num * price) * 12)).
Proof.
  intros Hall Hi Hprice. unfold build. cbn [Monthly_Revenue Annual_Revenue].
  rewrite Series_map_int64 by assumption.
  cbn [col_mul col_mul_int cell].
  assert (Hm : nth_error
            (zip_with (fun x y => wrap64 (x * y)) (map snd customers)
               (map (fun k => match dict_get pricing k with Some v => v | None => 0 end)
                  (map fst customers))) i = Some (wrap64 (num * price))).
  { rewrite nth_error_zip_with, !nth_error_map, Hi. cbn. rewrite Hprice. reflexivity. }
  split.
  - exact Hm.
  - rewrite nth_error_map, Hm. reflexivity.
Qed.

(** C7. In every row of the tiering table [Monthly_Revenue = Num_Customers *
    Price] and [Annual_Revenue = Monthly_Revenue * 12], as integers (no int64
    product wraps); the four tiers Starter, Growth, Pro, Enterprise have annual
    revenues 600000, 3600000, 2880000 and 3000000. *)
Theorem tier_revenue :
  (forall (i : nat) (tier : string),
     nth_error (Tier df) i = Some tier ->
     exists num price monthly annual : Z,
       cell (Num_Customers df) i = Some num /\
       cell (Price df) i = Some price /\
       cell (Monthly_Revenue df) i = Some monthly /\
       cell (Annual_Revenue df) i = Some annual /\
       monthly = num * price /\
       annual = monthly * 12) /\
  Tier df = ["Starter"; "Growth"; "Pro"; "Enterprise"] /\
  Annual_Revenue df = Int64 [600000; 3600000; 2880000; 3000000].
Proof.
  split; [| split; reflexivity].
  intros i tier Hi.
  do 4 (destruct i as [| i];
        [do 4 eexists; repeat split; vm_compute; reflexivity |]).
  destruct i; discriminate Hi.
Qed.

Lemma tier_revenue_witness :
  nth_error (Tier df) 0 = Some "Starter" /\
  exists num price monthly annual : Z,
    cell (Num_Customers df) 0 = Some num /\
    cell (Price df) 0 = Some price /\
    cell (Monthly_Revenue df) 0 = Some monthly /\
    cell (Annual_Revenue df) 0 = Some annual /\
    monthly = num * price /\
    annual = monthly * 12.
Proof.
  split.
  - reflexivity.
  - apply (proj1 tier_revenue 0%nat "Starter"). reflexivity.
Defined.

End ProductTieringFacts.

(** ** Customer profitability *)

(** A value that compares at or above another is a number, and one at or above
    5000 is not zero. *)
Lemma fge_number (x y : float) : fge x y = true -> is_nan x = false.
Proof. destruct x; try reflexivity. destruct y; discriminate. Qed.

Lemma fge_5000_not_zero (x : float) : fge x (of_Z 5000) = true -> is_zero x = false.
Proof. destruct x; try reflexivity. discriminate. Qed.

Section CustomerProfitabilityFacts.
Import CustomerProfitability.

(** What one clamp does to one cell. *)
Lemma clip_lower_ge (lower : Z) (x : float) :
  fge (of_Z lower) (of_Z lower) = true ->
  is_nan x = false ->
  fge (clip_lower lower x) (of_Z lower) = true.
Proof.
  intros Hrefl Hx. unfold clip_lower. rewrite Hx.
  destruct (fge x (of_Z lower)) eqn:Hge; assumption.
Qed.

Lemma clip_lower_keeps (lower : Z) (x : float) :
  fge x (of_Z lower) = true -> clip_lower lower x = x.
Proof.
  intros Hge. unfold clip_lower. rewrite Hge. destruct (is_nan x); reflexivity.
Qed.

Lemma clip_lower_cases (lower : Z) (x : float) :
  clip_lower lower x = x \/
  (clip_lower lower x = of_Z lower /\ fge x (of_Z lower) = false /\ is_nan x = false).
Proof.
  unfold clip_lower. destruct (is_nan x); [left; reflexivity |].
  destruct (fge x (of_Z lower)); [left; reflexivity | right; auto].
Qed.

Lemma clean_same_shape (d : frame) : rows (clean d) = rows d /\ (aligned d -> aligned (clean d)).
Proof.
  split; [reflexivity |].
  unfold aligned, rows, clean. cbn. rewrite !length_map. tauto.
Qed.

Lemma clean_bounded_below (d : frame) :
  Forall (fun x => is_nan x = false) (Annual_Revenue d) ->
  Forall (fun x => is_nan x = false) (CAC d) ->
  bounded_below (clean d).
Proof.
  intros Hrev Hcac. unfold bounded_below, clean. cbn. split.
  - apply Forall_map. eapply Forall_impl; [| exact Hrev].
    intros x. apply clip_lower_ge. reflexivity.
  - apply Forall_map. eapply Forall_impl; [| exact Hcac].
    intros x. apply clip_lower_ge. reflexivity.
Qed.

Context {L : NumLib}.

Lemma DataFrame_aligned (d : frame) : aligned d -> DataFrame d = ret d.
Proof.
  intros (H1 & H2 & H3 & H4 & H5). unfold DataFrame. unfold rows in *.
  rewrite H1, H2, H3, H4, H5, !Nat.eqb_refl. reflexivity.
Qed.

Lemma cell_cltv_eq (k : kernel) :
  cell_cltv k =
  ret (set_df (set_CLTV
                 (map round2
                    (zip_with (fun x years => fmul x (of_Z years))
                       (zip_with fmul (Annual_Revenue (df k)) (Gross_Margin (df k)))
                       (Retention_Years (df k))))
                 (df k)) k).
Proof. reflexivity. Qed.

Lemma cell_cltv_summary_eq (k : kernel) (cltv : list float) :
  CLTV (df k) = Some cltv ->
  cell_cltv_summary k =
  ret {| df := df k;
         cohort_summary := cohort_summary k;
         cltv_summary :=
           Some (map (fun key => (key, round2 (mean (group_cells key (Segment (df k)) cltv))))
                     (group_keys (Segment (df k)))) |}.
Proof. intros H. unfold cell_cltv_summary. rewrite H. reflexivity. Qed.

Lemma cell_ratio_eq (k : kernel) (cltv : list float) :
  CLTV (df k) = Some cltv ->
  cell_ratio k =
  ret (set_df (set_CLTV_CAC_Ratio (map round2 (zip_with fdiv cltv (CAC (df k)))) (df k)) k).
Proof. intros H. unfold cell_ratio. rewrite H. reflexivity. Qed.

(** No cell after the data setup touches the six columns of [data]. *)
Lemma later_cells_same_columns (c : kernel -> M kernel) (k k' : kernel) :
  In c later_cells -> outcome (c k) = inr k' -> same_columns (df k) (df k').
Proof.
  intros Hc Hrun.
  destruct Hc as [<- | [<- | [<- | [<- | []]]]].
  - cbn in Hrun. injection Hrun as <-. repeat split.
  - rewrite cell_cltv_eq in Hrun. cbn in Hrun. injection Hrun as <-. repeat split.
  - unfold cell_cltv_summary in Hrun. destruct (CLTV (df k)); [| discriminate].
    cbn in Hrun. injection Hrun as <-. repeat split.
  - unfold cell_ratio in Hrun. destruct (CLTV (df k)); [| discriminate].
    cbn in Hrun. injection Hrun as <-. repeat split.
Qed.

Lemma invariant_same_columns (k k' : kernel) :
  same_columns (df k) (df k') -> invariant k -> invariant k'.
Proof.
  intros (H1 & H2 & H3 & H4 & H5 & H6).
  unfold invariant, aligned, bounded_below, rows.
  rewrite H1, H2, H3, H4, H5, H6. tauto.
Qed.

(** The [data] dict under the laws of the library: 150 cells per column, and
    no NaN among the rounded normal draws. *)
Lemma data_shape {HL : NumLibLaws L} (g : rng) :
  let d := fst (data g) in
  rows d = 150%nat /\ aligned d /\
  Forall (fun x => is_nan x = false) (Annual_Revenue d) /\
  Forall (fun x => is_nan x = false) (CAC d).
Proof.
  unfold data.
  destruct (random_choice _ _ _ _) as [segment g1] eqn:E1.
  destruct (random_normal _ _ _ g1) as [revenue g2] eqn:E2.
  destruct (random_uniform _ _ _ g2) as [gm g3] eqn:E3.
  destruct (random_normal _ _ _ g3) as [cac g4] eqn:E4.
  destruct (random_randint _ _ _ g4) as [years g5] eqn:E5.
  cbn [fst].
  pose proof (random_choice_length segments n_customers
                [decimal 5 1; decimal 3 1; decimal 2 1] g) as L1.
  pose proof (random_normal_length (of_Z 100000) (of_Z 30000) n_customers g1) as L2.
  pose proof (random_uniform_length (decimal 6 1) (decimal 85 2) n_customers g2) as L3.
  pose proof (random_normal_length (of_Z 20000) (of_Z 5000) n_customers g3) as L4.
  pose proof (random_randint_length 1 6 n_customers g4) as L5.
  pose proof (random_normal_number (of_Z 100000) (of_Z 30000) n_customers g1
                eq_refl eq_refl) as N2.
  pose proof (random_normal_number (of_Z 20000) (of_Z 5000) n_customers g3
                eq_refl eq_refl) as N4.
  rewrite E1 in L1. rewrite E2 in L2, N2. rewrite E3 in L3. rewrite E4 in L4, N4.
  rewrite E5 in L5. cbn [fst] in *.
  unfold aligned, rows.
  cbn [Customer_ID Segment Annual_Revenue Gross_Margin CAC Retention_Years].
  rewrite !length_map, length_seq, L1, L2, L3, L4, L5.
  repeat split; try reflexivity.
  - apply Forall_map. eapply Forall_impl; [| exact N2]. intros x. apply round2_number.
  - apply Forall_map. eapply Forall_impl; [| exact N4]. intros x. apply round2_number.
Qed.

Lemma cell_setup_eq {HL : NumLibLaws L} (g0 : rng) :
  snd (cell_setup g0) =
  ret {| df := clean (fst (data (np_random_seed 42 g0)));
         cohort_summary := None; cltv_summary := None |}.
Proof.
  pose proof (data_shape (np_random_seed 42 g0)) as (_ & Halign & _).
  unfold cell_setup. destruct (data (np_random_seed 42 g0)) as [d g]. cbn [fst snd] in *.
  rewrite DataFrame_aligned by exact Halign. reflexivity.
Qed.

Lemma cell_setup_invariant {HL : NumLibLaws L} (g0 : rng) :
  invariant {| df := clean (fst (data (np_random_seed 42 g0)));
               cohort_summary := None; cltv_summary := None |}.
Proof.
  pose proof (data_shape (np_random_seed 42 g0)) as (Hrows & Halign & Hrev & Hcac).
  unfold invariant. cbn [df]. repeat split.
  - rewrite (proj1 (clean_same_shape _)). exact Hrows.
  - apply clean_same_shape, Halign.
  - apply clean_same_shape, Halign.
  - apply clean_same_shape, Halign.
  - apply clean_same_shape, Halign.
  - apply clean_same_shape, Halign.
  - apply clean_bounded_below; assumption.
  - apply clean_bounded_below; assumption.
Qed.

(** The whole run, cell by cell: it raises nothing, and the table it ends
    with has the six columns of the cleaned [data] and the two computed ones. *)
Lemma run_notebook_final {HL : NumLibLaws L} (g0 : rng) :
  exists (k : kernel) (cltv ratio : list float),
    run_notebook g0 = ret k /\
    invariant k /\
    CLTV (df k) = Some cltv /\
    cltv = map round2
             (zip_with (fun x years => fmul x (of_Z years))
                (zip_with fmul (Annual_Revenue (df k)) (Gross_Margin (df k)))
                (Retention_Years (df k))) /\
    length cltv = 150%nat /\
    CLTV_CAC_Ratio (df k) = Some ratio /\
    ratio = map round2 (zip_with fdiv cltv (CAC (df k))).
Proof.
  unfold run_notebook. rewrite cell_setup_eq, bind_ret.
  pose proof (cell_setup_invariant g0) as Hinv.
  set (k0 := {| df := clean (fst (data (np_random_seed 42 g0)));
                cohort_summary := None; cltv_summary := None |}) in *.
  unfold later_cells, run_cells.
  unfold cell_cohort_summary at 1. rewrite bind_ret.
  rewrite cell_cltv_eq, bind_ret.
  erewrite cell_cltv_summary_eq by reflexivity. rewrite bind_ret.
  erewrite cell_ratio_eq by reflexivity. rewrite bind_ret.
  do 3 eexists. split; [reflexivity |].
  split; [exact Hinv |].
  split; [reflexivity |]. split; [reflexivity |].
  split; [| split; reflexivity].
  destruct Hinv as (Hrows & (_ & Hrev & Hgm & _ & Hyears) & _).
  cbn [df set_df set_CLTV set_CLTV_CAC_Ratio Annual_Revenue Gross_Margin Retention_Years].
  rewrite length_map, !length_zip_with, Hrev, Hgm, Hyears, Hrows. reflexivity.
Qed.

(** The columns of [data], draw by draw, in the order of the dict literal. *)
Lemma data_columns (g : rng) :
  let choice := random_choice segments 150 [decimal 5 1; decimal 3 1; decimal 2 1] g in
  let revenue := random_normal (of_Z 100000) (of_Z 30000) 150 (snd choice) in
  let margin := random_uniform (decimal 6 1) (decimal 85 2) 150 (snd revenue) in
  let cac := random_normal (of_Z 20000) (of_Z 5000) 150 (snd margin) in
  let years := random_randint 1 6 150 (snd cac) in
  data g =
  ({| Customer_ID := map Z.of_nat (seq 1 150);
      Segment := fst choice;
      Annual_Revenue := map round2 (fst revenue);
      Gross_Margin := map round2 (fst margin);
      CAC := map round2 (fst cac);
      Retention_Years := fst years;
      CLTV := None;
      CLTV_CAC_Ratio := None |}, snd years).
Proof.
  cbv zeta. unfold data, n_customers.
  destruct (random_choice _ _ _ g) as [segment g1]. cbn [fst snd].
  destruct (random_normal _ _ _ g1) as [revenue g2]. cbn [fst snd].
  destruct (random_uniform _ _ _ g2) as [margin g3]. cbn [fst snd].
  destruct (random_normal _ _ _ g3) as [cac g4]. cbn [fst snd].
  destruct (random_randint _ _ _ g4) as [years g5]. reflexivity.
Qed.

(** Every code cell in notebook order, plots included: one kernel is the
    result of every run, whatever the state of NumPy's generator and of
    seaborn's; its table is the one drawn from the generator seeded with 42,
    and only what is drawn in the plots takes seaborn's states. *)
Lemma run_notebook_plots_final {HL : NumLibLaws L} {P : PlotLib} :
  let choice := random_choice segments 150 [decimal 5 1; decimal 3 1; decimal 2 1] (seed 42) in
  let revenue := random_normal (of_Z 100000) (of_Z 30000) 150 (snd choice) in
  let margin := random_uniform (decimal 6 1) (decimal 85 2) 150 (snd revenue) in
  let cac := random_normal (of_Z 20000) (of_Z 5000) 150 (snd margin) in
  let years := random_randint 1 6 150 (snd cac) in
  exists (k : kernel) (cltv ratio : list float)
         (by_cohort : list summary_row) (by_cltv : list (string * float)),
    (forall (g0 : rng) (b : nat -> bootstrap_state),
       run_notebook_plots g0 b =
         ret (k, [barplot (Segment (df k)) (Annual_Revenue (df k)) (b 0%nat);
                  barplot (Segment (df k)) (Gross_Margin (df k)) (b 1%nat);
                  barplot (Segment (df k)) (CAC (df k)) (b 2%nat);
                  barplot (Segment (df k)) (map of_Z (Retention_Years (df k))) (b 3%nat);
                  barplot (map fst by_cltv) (map snd by_cltv) (b 4%nat);
                  barplot (Segment (df k)) ratio (b 5%nat)]) /\
       run_notebook g0 = ret k /\
       fst (cell_setup g0) = snd years) /\
    Customer_ID (df k) = map Z.of_nat (seq 1 150) /\
    Segment (df k) = fst choice /\
    Annual_Revenue (df k) = map (clip_lower 20000) (map round2 (fst revenue)) /\
    Gross_Margin (df k) = map round2 (fst margin) /\
    CAC (df k) = map (clip_lower 5000) (map round2 (fst cac)) /\
    Retention_Years (df k) = fst years /\
    rows (df k) = 150%nat /\
    aligned (df k) /\
    CLTV (df k) = Some cltv /\
    cltv = map round2
             (zip_with (fun x n => fmul x (of_Z n))
                (zip_with fmul (Annual_Revenue (df k)) (Gross_Margin (df k)))
                (Retention_Years (df k))) /\
    length cltv = 150%nat /\
    CLTV_CAC_Ratio (df k) = Some ratio /\
    ratio = map round2 (zip_with fdiv cltv (CAC (df k))) /\
    length ratio = 150%nat /\
    cohort_summary k = Some by_cohort /\
    map summary_Segment by_cohort = group_keys (fst choice) /\
    cltv_summary k = Some by_cltv /\
    map fst by_cltv = group_keys (fst choice).
Proof.
  cbv zeta.
  pose proof (random_choice_length segments 150 [decimal 5 1; decimal 3 1; decimal 2 1]
                (seed 42)) as L1.
  set (choice := random_choice segments 150 _ (seed 42)) in *.
  pose proof (random_normal_length (of_Z 100000) (of_Z 30000) 150 (snd choice)) as L2.
  set (revenue := random_normal (of_Z 100000) (of_Z 30000) 150 (snd choice)) in *.
  pose proof (random_uniform_length (decimal 6 1) (decimal 85 2) 150 (snd revenue)) as L3.
  set (margin := random_uniform (decimal 6 1) (decimal 85 2) 150 (snd revenue)) in *.
  pose proof (random_normal_length (of_Z 20000) (of_Z 5000) 150 (snd margin)) as L4.
  set (cac := random_normal (of_Z 20000) (of_Z 5000) 150 (snd margin)) in *.
  pose proof (random_randint_length 1 6 150 (snd cac)) as L5.
  set (years := random_randint 1 6 150 (snd cac)) in *.
  assert (Hdata : data (seed 42) =
            ({| Customer_ID := map Z.of_nat (seq 1 150);
                Segment := fst choice;
                Annual_Revenue := map round2 (fst revenue);
                Gross_Margin := map round2 (fst margin);
                CAC := map round2 (fst cac);
                Retention_Years := fst years;
                CLTV := None;
                CLTV_CAC_Ratio := None |}, snd years)) by apply data_columns.
  set (d0 := {| Customer_ID := map Z.of_nat (seq 1 150);
                Segment := fst choice;
                Annual_Revenue := map round2 (fst revenue);
                Gross_Margin := map round2 (fst margin);
                CAC := map round2 (fst cac);
                Retention_Years := fst years;
                CLTV := None;
                CLTV_CAC_Ratio := None |}) in *.
  assert (Halign : aligned d0).
  { unfold aligned, rows, d0.
    cbn [Customer_ID Segment Annual_Revenue Gross_Margin CAC Retention_Years].
    rewrite !length_map, length_seq, L1, L2, L3, L4, L5.
    repeat split. }
  assert (Hsetup : forall g0 : rng,
            cell_setup g0 =
            (snd years, ret {| df := clean d0; cohort_summary := None; cltv_summary := None |})).
  { intros g0. unfold cell_setup. change (np_random_seed 42 g0) with (seed 42).
    rewrite Hdata, (DataFrame_aligned d0 Halign), bind_ret. reflexivity. }
  pose (d := clean d0).
  pose (cltv := map round2
                  (zip_with (fun x n => fmul x (of_Z n))
                     (zip_with fmul (Annual_Revenue d) (Gross_Margin d))
                     (Retention_Years d))).
  pose (ratio := map round2 (zip_with fdiv cltv (CAC d))).
  pose (by_cohort :=
          map (fun key =>
                 {| summary_Segment := key;
                    mean_Annual_Revenue :=
                      round2 (mean (group_cells key (Segment d) (Annual_Revenue d)));
                    mean_Gross_Margin :=
                      round2 (mean (group_cells key (Segment d) (Gross_Margin d)));
                    mean_CAC := round2 (mean (group_cells key (Segment d) (CAC d)));
                    mean_Retention_Years :=
                      round2 (mean (map of_Z (group_cells key (Segment d)
                                                (Retention_Years d)))) |})
              (group_keys (Segment d))).
  pose (by_cltv := map (fun key => (key, round2 (mean (group_cells key (Segment d) cltv))))
                       (group_keys (Segment d))).
  exists {| df := set_CLTV_CAC_Ratio ratio (set_CLTV cltv d);
            cohort_summary := Some by_cohort;
            cltv_summary := Some by_cltv |}, cltv, ratio, by_cohort, by_cltv.
  split.
  - intros g0 b. unfold run_notebook_plots, run_notebook. rewrite (Hsetup g0). cbn [fst snd].
    rewrite !bind_ret.
    unfold later_cells, run_cells.
    unfold cell_cohort_summary. cbv zeta. rewrite !bind_ret.
    unfold cell_cohort_plots. cbv zeta. rewrite bind_ret.
    rewrite !cell_cltv_eq, !bind_ret.
    erewrite !cell_cltv_summary_eq by reflexivity. rewrite !bind_ret.
    unfold plot_cltv_summary. cbn [cltv_summary]. rewrite bind_ret.
    erewrite !cell_ratio_eq by reflexivity. rewrite !bind_ret.
    unfold cell_ratio_plot.
    cbn [df set_df set_CLTV set_CLTV_CAC_Ratio CLTV_CAC_Ratio]. rewrite bind_ret.
    split; [| split]; reflexivity.
  - unfold aligned, rows, by_cohort, by_cltv, ratio, cltv, d, clean, d0.
    cbn [df set_df set_CLTV set_CLTV_CAC_Ratio cohort_summary cltv_summary
         Customer_ID Segment Annual_Revenue Gross_Margin CAC Retention_Years CLTV
         CLTV_CAC_Ratio set_Annual_Revenue set_CAC].
    rewrite !(map_map _ summary_Segment), !(map_map _ fst). cbn [summary_Segment fst].
    rewrite !map_id.
    rewrite !length_map, !length_zip_with, !length_map, !length_zip_with, !length_map,
      length_seq, L1, L2, L3, L4, L5.
    repeat split.
Qed.

Lemma row_exists {A : Type} (col : list A) (i : nat) :
  (i < length col)%nat -> exists x, nth_error col i = Some x.
Proof.
  intros Hi. destruct (nth_error col i) as [x |] eqn:Hx.
  - exists x. reflexivity.
  - apply nth_error_None in Hx. lia.
Qed.

End CustomerProfitabilityFacts.

Section Analysis.
Import CustomerProfitability.

(** The sample library obeys the laws. *)
Lemma sample_laws : NumLibLaws Sample.lib.
Proof.
  constructor; cbn; unfold Sample.draw; intros; cbn [fst];
    try (rewrite length_map, length_seq; reflexivity).
  apply Forall_map, Forall_forall. intros i _.
  destruct (Z.even _); [assumption | reflexivity].
Qed.

(** C3. The code cells, run in order, raise nothing, and for every one of the
    150 customer rows the CLTV cell is [(Annual_Revenue * Gross_Margin) *
    Retention_Years] of that row rounded to 2 decimals: revenue times margin
    times retention years. *)
Theorem cltv_formula (L : NumLib) (HL : NumLibLaws L) (g0 : rng) :
  exists (k : kernel) (cltv : list float),
    run_notebook g0 = ret k /\
    rows (df k) = 150%nat /\
    CLTV (df k) = Some cltv /\
    length cltv = 150%nat /\
    forall i : nat, (i < 150)%nat ->
      exists (revenue margin : float) (years : Z),
        nth_error (Annual_Revenue (df k)) i = Some revenue /\
        nth_error (Gross_Margin (df k)) i = Some margin /\
        nth_error (Retention_Years (df k)) i = Some years /\
        nth_error cltv i = Some (round2 (fmul (fmul revenue margin) (of_Z years))).
Proof.
  destruct (run_notebook_final g0)
    as (k & cltv & ratio & Hrun & Hinv & Hcltv & -> & Hlen & _).
  destruct Hinv as (Hrows & (_ & Hrev & Hgm & _ & Hyears) & _).
  exists k. eexists. split; [exact Hrun |]. split; [exact Hrows |].
  split; [exact Hcltv |]. split; [exact Hlen |].
  intros i Hi.
  destruct (row_exists (Annual_Revenue (df k)) i) as [revenue Hr]; [lia |].
  destruct (row_exists (Gross_Margin (df k)) i) as [margin Hm]; [lia |].
  destruct (row_exists (Retention_Years (df k)) i) as [years Hy]; [lia |].
  exists revenue, margin, years. repeat split; try assumption.
  rewrite nth_error_map, !nth_error_zip_with, Hr, Hm, Hy. reflexivity.
Qed.

Lemma cltv_formula_witness :
  NumLibLaws Sample.lib /\
  exists (k : kernel) (cltv : list float),
    run_notebook (L := Sample.lib) 7 = ret k /\
    rows (df k) = 150%nat /\
    CLTV (df k) = Some cltv /\
    length cltv = 150%nat /\
    forall i : nat, (i < 150)%nat ->
      exists (revenue margin : float) (years : Z),
        nth_error (Annual_Revenue (df k)) i = Some revenue /\
        nth_error (Gross_Margin (df k)) i = Some margin /\
        nth_error (Retention_Years (df k)) i = Some years /\
        nth_error cltv i =
          Some (round2 (fmul (fmul revenue margin) (of_Z years))).
Proof.
  split.
  - exact sample_laws.
  - exact (cltv_formula Sample.lib sample_laws 7).
Defined.

(** C8. After the data-setup cell the table has 150 rows and every row has
    [Annual_Revenue >= 20000] and [CAC >= 5000]; every later cell keeps it so;
    and at the end of the run each cell of [CLTV_CAC_Ratio] is the rounded
    quotient of the row's CLTV by the row's CAC, a divisor that is at least
    5000, hence neither zero nor missing. *)
Theorem revenue_and_cac_bounded (L : NumLib) (HL : NumLibLaws L) (g0 : rng) :
  (exists k0 : kernel, snd (cell_setup g0) = ret k0 /\ invariant k0) /\
  (forall (c : kernel -> M kernel) (k k' : kernel),
     In c later_cells -> invariant k -> outcome (c k) = inr k' -> invariant k') /\
  (exists (k : kernel) (cltv ratio : list float),
     run_notebook g0 = ret k /\
     invariant k /\
     CLTV (df k) = Some cltv /\
     CLTV_CAC_Ratio (df k) = Some ratio /\
     forall i : nat, (i < 150)%nat ->
       exists dividend divisor : float,
         nth_error cltv i = Some dividend /\
         nth_error (CAC (df k)) i = Some divisor /\
         nth_error ratio i = Some (round2 (fdiv dividend divisor)) /\
         fge divisor (of_Z 5000) = true /\
         is_zero divisor = false /\
         is_nan divisor = false).
Proof.
  split; [| split].
  - eexists. split; [apply cell_setup_eq | apply cell_setup_invariant].
  - intros c k k' Hc Hinv Hrun.
    eapply invariant_same_columns; [| exact Hinv].
    eapply later_cells_same_columns; eassumption.
  - destruct (run_notebook_final g0)
      as (k & cltv & ratio & Hrun & Hinv & Hcltv & _ & Hlen & Hratio & ->).
    exists k, cltv. eexists. split; [exact Hrun |]. split; [exact Hinv |].
    split; [exact Hcltv |]. split; [exact Hratio |].
    intros i Hi.
    destruct Hinv as (Hrows & (_ & _ & _ & Hcac & _) & (_ & Hbound)).
    destruct (row_exists cltv i) as [dividend Hd]; [lia |].
    destruct (row_exists (CAC (df k)) i) as [divisor Hv]; [lia |].
    exists dividend, divisor.
    assert (Hge : fge divisor (of_Z 5000) = true).
    { rewrite Forall_forall in Hbound. apply Hbound. eapply nth_error_In, Hv. }
    repeat split; try assumption.
    + rewrite nth_error_map, nth_error_zip_with, Hd, Hv. reflexivity.
    + apply fge_5000_not_zero, Hge.
    + eapply fge_number, Hge.
Qed.

Lemma revenue_and_cac_bounded_witness :
  NumLibLaws Sample.lib /\
  (exists k0 : kernel,
     snd (cell_setup (L := Sample.lib) 0) = ret k0 /\ invariant k0) /\
  (In cell_cltv (later_cells (L := Sample.lib)) /\
   invariant Sample.setup_kernel /\
   exists k' : kernel,
     outcome (cell_cltv Sample.setup_kernel) = inr k' /\ invariant k') /\
  (exists (k : kernel) (cltv ratio : list float),
     run_notebook (L := Sample.lib) 0 = ret k /\
     invariant k /\
     CLTV (df k) = Some cltv /\
     CLTV_CAC_Ratio (df k) = Some ratio /\
     forall i : nat, (i < 150)%nat ->
       exists dividend divisor : float,
         nth_error cltv i = Some dividend /\
         nth_error (CAC (df k)) i = Some divisor /\
         nth_error ratio i =
           Some (round2 (fdiv dividend divisor)) /\
         fge divisor (of_Z 5000) = true /\
         is_zero divisor = false /\
         is_nan divisor = false).
Proof.
  assert (Hinv : invariant Sample.setup_kernel).
  { unfold invariant, aligned, bounded_below.
    repeat split; try reflexivity;
      apply Forall_forall; intros x Hx;
      refine (proj1 (forallb_forall (fun x => fge x _) _) _ x Hx);
      vm_compute; reflexivity. }
  pose proof (revenue_and_cac_bounded Sample.lib sample_laws 0) as (Hsetup & Hkeep & Hrun).
  split; [exact sample_laws |].
  split; [exact Hsetup |].
  split; [| exact Hrun].
  split; [right; left; reflexivity |].
  split; [exact Hinv |].
  eexists. split; [reflexivity |].
  eapply (Hkeep cell_cltv Sample.setup_kernel).
  - right; left; reflexivity.
  - exact Hinv.
  - reflexivity.
Defined.




(** The draws themselves do depend on the state of the generator: it is the
    seeding that makes the tables independent of it. *)
Example unseeded_data_differs :
  Annual_Revenue (fst (data (L := Sample.lib) 0)) <>
  Annual_Revenue (fst (data (L := Sample.lib) 1)).
Proof. vm_compute. discriminate. Qed.




(** C6 counterexample: a constructed table is adjusted.  The constructor accepts
    the small table, and the cleaning lines that follow replace its CAC of 3000
    by 5000. *)
Lemma cac_clamp_counterexample :
  DataFrame Sample.small_table = ret Sample.small_table /\
  CAC Sample.small_table = [of_Z 21000; of_Z 3000] /\
  CAC (clean Sample.small_table) = [of_Z 21000; of_Z 5000] /\
  clean Sample.small_table <> Sample.small_table.
Proof. repeat split; try reflexivity. discriminate. Qed.

(** C6, amended. Of the tables the notebooks build, three are used as
    constructed: the cohort table gets three computed columns joined to its
    rows, which stay as they were; the tiering table gets its price and
    revenue columns beside the tiers and customer numbers of the dict; the
    table of the competitive analysis is only displayed.  The customer table is
    adjusted: after it is constructed, the data-setup cell clamps each
    [Annual_Revenue] cell to at least 20000 and each [CAC] cell to at least
    5000 (a cell at or above the bound, or missing, is kept; a number below
    the bound becomes the bound).  Nothing else is adjusted: the cleaning leaves
    every other column as constructed, and no later cell changes any of the
    six data columns. *)
Theorem table_adjusted_only_by_clamps :
  (forall d : frame,
     Customer_ID (clean d) = Customer_ID d /\
     Segment (clean d) = Segment d /\
     Gross_Margin (clean d) = Gross_Margin d /\
     Retention_Years (clean d) = Retention_Years d /\
     CLTV (clean d) = CLTV d /\
     CLTV_CAC_Ratio (clean d) = CLTV_CAC_Ratio d) /\
  (forall (d : frame) (i : nat) (x : float),
     nth_error (Annual_Revenue d) i = Some x ->
     exists y : float,
       nth_error (Annual_Revenue (clean d)) i = Some y /\
       (fge x (of_Z 20000) = true -> y = x) /\
       (is_nan x = true -> y = x) /\
       (is_nan x = false -> fge x (of_Z 20000) = false -> y = of_Z 20000)) /\
  (forall (d : frame) (i : nat) (x : float),
     nth_error (CAC d) i = Some x ->
     exists y : float,
       nth_error (CAC (clean d)) i = Some y /\
       (fge x (of_Z 5000) = true -> y = x) /\
       (is_nan x = true -> y = x) /\
       (is_nan x = false -> fge x (of_Z 5000) = false -> y = of_Z 5000)) /\
  (forall (L : NumLib) (c : kernel -> M kernel) (k k' : kernel),
     In c later_cells -> outcome (c k) = inr k' -> same_columns (df k) (df k')) /\
  (forall rows : list UnitEconomics.cohort,
     Forall UnitEconomics.row_in_float_range rows ->
     exists table : list (UnitEconomics.cohort * UnitEconomics.economics),
       outcome (UnitEconomics.join_economics rows) = inr table /\
       map fst table = rows) /\
  (forall customers pricing : ProductTiering.dict Z,
     Forall (fun kv => - 2 ^ 63 <= snd kv < 2 ^ 63) customers ->
     ProductTiering.Tier (ProductTiering.build customers pricing) = map fst customers /\
     ProductTiering.Num_Customers (ProductTiering.build customers pricing) =
       ProductTiering.Int64 (map snd customers)) /\
  Rendering.effects Rendering.competitive_analysis = [Rendering.DisplayTable "pricing_df"].
Proof.
  split; [| split; [| split; [| split; [| split; [| split]]]]].
  - intros d. repeat split.
  - intros d i x Hx. exists (clip_lower 20000 x). split.
    + unfold clean. cbn. rewrite nth_error_map, Hx. reflexivity.
    + split; [apply clip_lower_keeps |].
      split; [intros Hn; unfold clip_lower; rewrite Hn; reflexivity |].
      intros Hn Hlt. unfold clip_lower. rewrite Hn, Hlt. reflexivity.
  - intros d i x Hx. exists (clip_lower 5000 x). split.
    + unfold clean. cbn. rewrite nth_error_map, Hx. reflexivity.
    + split; [apply clip_lower_keeps |].
      split; [intros Hn; unfold clip_lower; rewrite Hn; reflexivity |].
      intros Hn Hlt. unfold clip_lower. rewrite Hn, Hlt. reflexivity.
  - intros L c k k'. apply later_cells_same_columns.
  - intros rows Hrange.
    destruct (join_economics_rows rows Hrange) as (table & Hout & Hfst & _).
    exists table. split; assumption.
  - intros customers pricing _. split; reflexivity.
  - reflexivity.
Qed.

Lemma table_adjusted_only_by_clamps_witness :
  (nth_error (Annual_Revenue Sample.small_table) 0 = Some (of_Z 12000) /\
   is_nan (of_Z 12000) = false /\
   fge (of_Z 12000) (of_Z 20000) = false /\
   nth_error (Annual_Revenue (clean Sample.small_table)) 0 = Some (of_Z 20000)) /\
  (nth_error (CAC Sample.small_table) 0 = Some (of_Z 21000) /\
   fge (of_Z 21000) (of_Z 5000) = true /\
   nth_error (CAC (clean Sample.small_table)) 0 = Some (of_Z 21000)) /\
  (In cell_cltv (later_cells (L := Sample.lib)) /\
   outcome (cell_cltv Sample.small_kernel) =
     inr Sample.small_kernel_cltv /\
   same_columns (df Sample.small_kernel) (df Sample.small_kernel_cltv)) /\
  (Forall UnitEconomics.row_in_float_range UnitEconomics.cohorts /\
   exists table : list (UnitEconomics.cohort * UnitEconomics.economics),
     outcome (UnitEconomics.join_economics UnitEconomics.cohorts) = inr table /\
     map fst table = UnitEconomics.cohorts) /\
  (Forall (fun kv => - 2 ^ 63 <= snd kv < 2 ^ 63) ProductTiering.customers /\
   ProductTiering.Tier ProductTiering.df = map fst ProductTiering.customers).
Proof.
  pose proof table_adjusted_only_by_clamps as (_ & Hrev & Hcac & Hlater & Hjoin & Htier & _).
  split; [| split; [| split; [| split]]].
  - split; [reflexivity |]. split; [reflexivity |]. split; [reflexivity |].
    destruct (Hrev Sample.small_table 0%nat (of_Z 12000) eq_refl) as (y & Hy & _ & _ & Hlow).
    rewrite Hy. f_equal. apply Hlow; reflexivity.
  - split; [reflexivity |]. split; [reflexivity |].
    destruct (Hcac Sample.small_table 0%nat (of_Z 21000) eq_refl) as (y & Hy & Hkeep & _).
    rewrite Hy. f_equal. apply Hkeep. reflexivity.
  - split; [right; left; reflexivity |]. split; [reflexivity |].
    apply (Hlater Sample.lib cell_cltv).
    + right; left; reflexivity.
    + reflexivity.
  - assert (H : Forall UnitEconomics.row_in_float_range UnitEconomics.cohorts).
    { repeat constructor. }
    split; [exact H | exact (Hjoin UnitEconomics.cohorts H)].
  - assert (H : Forall (fun kv => - 2 ^ 63 <= snd kv < 2 ^ 63) ProductTiering.customers).
    { repeat constructor; cbn; lia. }
    split; [exact H | exact (proj1 (Htier ProductTiering.customers ProductTiering.pricing H))].
Defined.

End Analysis.

(** ** What the notebooks show and write *)

Section RenderingFacts.
Import Rendering.

(** C5 counterexample: a notebook writes a file.  The plotting cell of the
    product-tiering notebook saves its chart before showing it. *)
Lemma product_tiering_saves_figure :
  In product_tiering notebooks /\
  written_files product_tiering = ["../report/graphics/tiering_revenue.png"] /\
  written_files product_tiering <> [].
Proof.
  split; [right; right; left; reflexivity |].
  split; [reflexivity | discriminate].
Qed.

(** C5, amended. No notebook writes a file or other persisted state, except
    the product-tiering notebook, which saves its chart to
    ../report/graphics/tiering_revenue.png; every other observable effect of
    every notebook is rendered inline (tables, values, printed lines, figures
    and the error messages of the prose cells typed as code). *)
Theorem only_product_tiering_writes :
  Forall
    (fun nb : notebook =>
       written_files nb =
         (if String.eqb (title nb) (title product_tiering)
          then ["../report/graphics/tiering_revenue.png"]
          else []) /\
       Forall
         (fun e : effect =>
            inline e = true \/
            e = SaveFigure "../report/graphics/tiering_revenue.png")
         (effects nb))
    notebooks.
Proof.
  repeat (apply Forall_cons; [split; [reflexivity |] |]).
  all: try apply Forall_nil.
  all: cbn; repeat (apply Forall_cons; [first [left; reflexivity | right; reflexivity] |]).
  all: apply Forall_nil.
Qed.

End RenderingFacts.

(** * Further properties of the notebooks' code *)

(** ** The cohort table as a whole *)

Lemma apply_rows_eq {A B : Type} (f : A -> M B) (t : A -> list event) (g : A -> B)
    (rows : list A) :
  Forall (fun r => f r = (t r, inr (g r))) rows ->
  apply_rows f rows = (flat_map t rows, inr (map g rows)).
Proof.
  intros Hf. induction Hf as [| r rows Hr _ IH].
  - reflexivity.
  - cbn [apply_rows flat_map map]. rewrite Hr, bind_value, IH, bind_value.
    cbn. rewrite app_nil_r. reflexivity.
Qed.

(** What holds of the log of the row function and of what it raises, on every
    row, holds of [apply]. *)
Lemma apply_rows_log_outcome {A B : Type} (P : event -> Prop) (E : exn) (f : A -> M B)
    (rows : list A) :
  (forall r, Forall P (log (f r)) /\ outcome (f r) <> inl E) ->
  Forall P (log (apply_rows f rows)) /\ outcome (apply_rows f rows) <> inl E.
Proof.
  intros Hf. induction rows as [| r rows IH].
  - split; [constructor | discriminate].
  - cbn [apply_rows].
    apply bind_log_outcome; [apply Hf | apply Hf |]. intros y _.
    apply bind_log_outcome; [apply IH | apply IH |]. intros ys _.
    split; [constructor | discriminate].
Qed.

Lemma map_fst_combine_map {A B : Type} (g : A -> B) (l : list A) :
  map fst (combine l (map g l)) = l.
Proof. induction l as [| a l IH]; cbn; [reflexivity | now rewrite IH]. Qed.

Lemma map_snd_combine_map {A B : Type} (g : A -> B) (l : list A) :
  map snd (combine l (map g l)) = map g l.
Proof. induction l as [| a l IH]; cbn; [reflexivity | now rewrite IH]. Qed.

Section CohortTableFacts.
Import UnitEconomics.

(** The log and the result of [apply] and [join] on any table in range. *)
Lemma join_economics_log (rows : list cohort) :
  Forall row_in_float_range rows ->
  log (join_economics rows) =
    flat_map
      (fun row =>
         [TrueDiv (PyInt (monthly_tokens row)) (PyInt 1000);
          TrueDiv (PyInt (fine_tune_tokens row)) (PyInt 1000)]
         ++ (if payment row >? 0
             then [TrueDiv (PyFloat (fsub (of_Z (payment row)) (total_cost_formula row)))
                           (PyInt (payment row))]
             else []))
      rows /\
  exists table : list (cohort * economics),
    outcome (join_economics rows) = inr table /\
    map fst table = rows /\
    map (fun r => margin (snd r)) table =
      map (fun row => fsub (of_Z (payment row)) (total_cost_formula row)) rows.
Proof.
  intros Hrange. unfold join_economics.
  erewrite apply_rows_eq
    by (eapply Forall_impl; [| exact Hrange]; intros r Hr;
        apply (calculate_unit_economics_eq r Hr)).
  rewrite bind_value. cbn [log outcome fst snd ret]. rewrite app_nil_r.
  split; [reflexivity |]. eexists. split; [reflexivity |].
  split.
  - apply map_fst_combine_map.
  - rewrite <- (map_map snd margin), map_snd_combine_map, map_map. reflexivity.
Qed.

Lemma total_cost_formula_usage (a b : cohort) :
  monthly_tokens a = monthly_tokens b ->
  fine_tune_tokens a = fine_tune_tokens b ->
  total_cost_formula a = total_cost_formula b.
Proof. intros H1 H2. unfold total_cost_formula. rewrite H1, H2. reflexivity. Qed.

(** X1. Whatever the table of cohorts, [apply] of the row function and the
    [join] never divide by zero: every division the run evaluates has a
    divisor that is not zero, and what the run may raise is not
    [ZeroDivisionError].  On a table whose token counts and payments are in
    the range of a float the run raises nothing, and the joined table has the
    rows of the input in their order. *)
Theorem cohort_table_never_divides_by_zero (rows : list cohort) :
  Forall (fun e => match e with
                   | TrueDiv _ den => num_is_zero den = false
                   | Printed _ => True
                   end)
         (log (join_economics rows)) /\
  outcome (join_economics rows) <> inl ZeroDivisionError /\
  (Forall row_in_float_range rows ->
   exists table : list (cohort * economics),
     outcome (join_economics rows) = inr table /\
     map fst table = rows).
Proof.
  assert (H : Forall (fun e => match e with
                               | TrueDiv _ den => num_is_zero den = false
                               | Printed _ => True
                               end)
                     (log (join_economics rows)) /\
              outcome (join_economics rows) <> inl ZeroDivisionError).
  { unfold join_economics.
    pose proof (apply_rows_log_outcome _ ZeroDivisionError _ rows
                  calculate_unit_economics_guarded) as Hrows.
    apply bind_log_outcome; [apply Hrows | apply Hrows |].
    intros computed _. split; [constructor | discriminate]. }
  split; [apply H |]. split; [apply H |].
  intros Hrange.
  destruct (join_economics_log rows Hrange) as (_ & table & Hout & Hfst & _).
  exists table. split; assumption.
Qed.

Lemma cohort_table_never_divides_by_zero_witness :
  Forall row_in_float_range cohorts /\
  exists table : list (cohort * economics),
    outcome (join_economics cohorts) = inr table /\
    map fst table = cohorts.
Proof.
  assert (H : Forall row_in_float_range cohorts) by (repeat constructor).
  split; [exact H |].
  exact (proj2 (proj2 (cohort_table_never_divides_by_zero cohorts)) H).
Defined.

(** A table with a row beyond the range stops at that row with
    [OverflowError], after the divisions of the rows before it. *)
Example cohort_table_overflow :
  outcome (join_economics [smb; Sample.whale; enterprise]) =
    inl (OverflowError "integer division result too large for a float") /\
  length (log (join_economics [smb; Sample.whale; enterprise])) = 4%nat.
Proof. split; vm_compute; reflexivity. Qed.

(** X2. On a table in the range of a float, building the joined table
    evaluates two divisions for each row and one more for each row whose
    payment is positive, and no other. *)
Theorem cohort_table_division_count (rows : list cohort) :
  Forall row_in_float_range rows ->
  length (log (join_economics rows)) =
  (2 * length rows + length (filter (fun row => payment row >? 0) rows))%nat.
Proof.
  intros Hrange.
  destruct (join_economics_log rows Hrange) as (-> & _). clear Hrange.
  induction rows as [| r rows IH]; [reflexivity |].
  cbn [flat_map filter]. rewrite length_app, IH.
  destruct (payment r >? 0); cbn [length app]; lia.
Qed.

Lemma cohort_table_division_count_witness :
  Forall row_in_float_range cohorts /\
  length (log (join_economics cohorts)) =
  (2 * length cohorts + length (filter (fun row => payment row >? 0) cohorts))%nat.
Proof.
  assert (H : Forall row_in_float_range cohorts) by (repeat constructor).
  split; [exact H | exact (cohort_table_division_count cohorts H)].
Defined.

(** X3. The economics of a row depend on its monthly tokens, its fine-tune
    tokens and its payment only: the name, the churn and the head count of
    the cohort never enter the cost, the margin or the percentage. *)
Theorem economics_depend_on_usage_only (a b : cohort) :
  monthly_tokens a = monthly_tokens b ->
  fine_tune_tokens a = fine_tune_tokens b ->
  payment a = payment b ->
  calculate_unit_economics a = calculate_unit_economics b.
Proof.
  intros H1 H2 H3. unfold calculate_unit_economics.
  rewrite H1, H2, H3. reflexivity.
Qed.

Lemma economics_depend_on_usage_only_witness :
  monthly_tokens indie = monthly_tokens Sample.hobbyist /\
  fine_tune_tokens indie = fine_tune_tokens Sample.hobbyist /\
  payment indie = payment Sample.hobbyist /\
  churn indie <> churn Sample.hobbyist /\
  calculate_unit_economics indie = calculate_unit_economics Sample.hobbyist.
Proof.
  split; [reflexivity |]. split; [reflexivity |]. split; [reflexivity |].
  split; [discriminate |].
  apply economics_depend_on_usage_only; reflexivity.
Defined.

(** X4. The break-even point is computed from the plain mean of the margins:
    two tables in the range of a float whose rows agree on tokens and payment
    have the same break-even point, whatever the churn and the head count of
    their cohorts. *)
Theorem breakeven_ignores_cohort_sizes (L : NumLib) (rows rows' : list cohort) :
  Forall row_in_float_range rows ->
  Forall row_in_float_range rows' ->
  Forall2 (fun a b => monthly_tokens a = monthly_tokens b /\
                      fine_tune_tokens a = fine_tune_tokens b /\
                      payment a = payment b)
          rows rows' ->
  exists table table' : list (cohort * economics),
    outcome (join_economics rows) = inr table /\
    outcome (join_economics rows') = inr table' /\
    breakeven_customers table = breakeven_customers table'.
Proof.
  intros Hrange Hrange' Hsame.
  destruct (join_economics_log rows Hrange) as (_ & table & Hout & _ & Hm).
  destruct (join_economics_log rows' Hrange') as (_ & table' & Hout' & _ & Hm').
  exists table, table'. split; [exact Hout |]. split; [exact Hout' |].
  unfold breakeven_customers, avg_monthly_margin. rewrite Hm, Hm'.
  clear table table' Hout Hout' Hm Hm' Hrange Hrange'.
  assert (Heq : map (fun row => fsub (of_Z (payment row)) (total_cost_formula row)) rows =
                map (fun row => fsub (of_Z (payment row)) (total_cost_formula row)) rows').
  { induction Hsame as [| a b rows rows' (H1 & H2 & H3) _ IH]; [reflexivity |].
    cbn [map]. rewrite IH, (total_cost_formula_usage a b H1 H2), H3. reflexivity. }
  rewrite Heq. reflexivity.
Qed.

Lemma breakeven_ignores_cohort_sizes_witness :
  Forall row_in_float_range cohorts /\
  Forall row_in_float_range [Sample.hobbyist; smb; enterprise] /\
  Forall2 (fun a b => monthly_tokens a = monthly_tokens b /\
                      fine_tune_tokens a = fine_tune_tokens b /\
                      payment a = payment b)
          cohorts [Sample.hobbyist; smb; enterprise] /\
  exists table table' : list (cohort * economics),
    outcome (join_economics cohorts) = inr table /\
    outcome (join_economics [Sample.hobbyist; smb; enterprise]) = inr table' /\
    breakeven_customers (L := Sample.lib) table =
    breakeven_customers (L := Sample.lib) table'.
Proof.
  assert (Hr : Forall row_in_float_range cohorts) by (repeat constructor).
  assert (Hr' : Forall row_in_float_range [Sample.hobbyist; smb; enterprise])
    by (repeat constructor).
  assert (H : Forall2 (fun a b => monthly_tokens a = monthly_tokens b /\
                                  fine_tune_tokens a = fine_tune_tokens b /\
                                  payment a = payment b)
                      cohorts [Sample.hobbyist; smb; enterprise]).
  { repeat constructor. }
  split; [exact Hr |]. split; [exact Hr' |]. split; [exact H |].
  exact (breakeven_ignores_cohort_sizes Sample.lib _ _ Hr Hr' H).
Defined.

End CohortTableFacts.

(** ** The token cost estimate *)

Section PricingSimulationFacts.
Import PricingSimulation.

(** X5. On token counts whose costs are in the range of a float
    [estimate_claude_cost] prints its three lines, each the formatted amount,
    and returns [input * 30 + output * 60]; so the cost of usage billed in two
    parts is the sum of the costs of the parts.  Beyond the range it raises
    [OverflowError] when it formats the first amount that does not fit, and
    returns nothing. *)
Theorem estimate_claude_cost_additive :
  (forall a c : Z,
     in_float_range (a * 30) -> in_float_range (c * 60) ->
     in_float_range (a * 30 + c * 60) ->
     outcome (estimate_claude_cost a c) = inr (a * 30 + c * 60) /\
     exists shown_input shown_output shown_total : string,
       format_comma_2f (a * 30) = ret shown_input /\
       format_comma_2f (c * 60) = ret shown_output /\
       format_comma_2f (a * 30 + c * 60) = ret shown_total /\
       log (estimate_claude_cost a c) =
         [Printed (String.append "Input cost:  $" shown_input);
          Printed (String.append "Output cost: $" shown_output);
          Printed (String.append "Total:       $" shown_total)]) /\
  (forall a b c d x y : Z,
     outcome (estimate_claude_cost a c) = inr x ->
     outcome (estimate_claude_cost b d) = inr y ->
     in_float_range ((a + b) * 30) -> in_float_range ((c + d) * 60) ->
     in_float_range ((a + b) * 30 + (c + d) * 60) ->
     outcome (estimate_claude_cost (a + b) (c + d)) = inr (x + y)) /\
  (forall a c : Z,
     is_finite (of_Z (a * 30)) = false ->
     estimate_claude_cost a c =
       raise (OverflowError "int too large to convert to float")).
Proof.
  split; [| split].
  - apply estimate_claude_cost_returns.
  - intros a b c d x y Hx Hy H1 H2 H3.
    rewrite (proj1 (estimate_claude_cost_returns _ _ H1 H2 H3)).
    rewrite (estimate_claude_cost_value a c x Hx), (estimate_claude_cost_value b d y Hy).
    f_equal. lia.
  - intros a c Hbig. unfold estimate_claude_cost, format_comma_2f, to_float.
    rewrite Hbig. reflexivity.
Qed.

Lemma estimate_claude_cost_additive_witness :
  (in_float_range (5 * 30) /\ in_float_range (2 * 60) /\ in_float_range (5 * 30 + 2 * 60) /\
   outcome (estimate_claude_cost 5 2) = inr 270 /\
   log (estimate_claude_cost 5 2) =
     [Printed "Input cost:  $150.00"; Printed "Output cost: $120.00";
      Printed "Total:       $270.00"]) /\
  (outcome (estimate_claude_cost 3 2) = inr 210 /\
   outcome (estimate_claude_cost 2 0) = inr 60 /\
   outcome (estimate_claude_cost (3 + 2) (2 + 0)) = inr (210 + 60)) /\
  (is_finite (of_Z (10 ^ 400 * 30)) = false /\
   estimate_claude_cost (10 ^ 400) 0 =
     raise (OverflowError "int too large to convert to float")).
Proof.
  pose proof estimate_claude_cost_additive as (Hreturns & Hsum & Hbig).
  split; [| split].
  - assert (H1 : in_float_range (5 * 30)) by reflexivity.
    assert (H2 : in_float_range (2 * 60)) by reflexivity.
    assert (H3 : in_float_range (5 * 30 + 2 * 60)) by reflexivity.
    split; [exact H1 |]. split; [exact H2 |]. split; [exact H3 |].
    split; [exact (proj1 (Hreturns 5 2 H1 H2 H3)) |].
    vm_compute. reflexivity.
  - split; [vm_compute; reflexivity |]. split; [vm_compute; reflexivity |].
    apply Hsum; vm_compute; reflexivity.
  - assert (H : is_finite (of_Z (10 ^ 400 * 30)) = false) by (vm_compute; reflexivity).
    split; [exact H | exact (Hbig (10 ^ 400) 0 H)].
Defined.

End PricingSimulationFacts.

(** ** The tiering table for any two dicts *)

Section TieringTableFacts.
Import ProductTiering.

Lemma wrap64_range (z : Z) : - 2 ^ 63 <= wrap64 z < 2 ^ 63.
Proof. unfold wrap64. pose proof (Z.mod_pos_bound (z + 2 ^ 63) (2 ^ 64)). lia. Qed.

Lemma wrap64_congruent (z : Z) : wrap64 z mod 2 ^ 64 = z mod 2 ^ 64.
Proof. unfold wrap64. rewrite Zminus_mod_idemp_l. f_equal. lia. Qed.

Lemma Series_map_float64 (d : dict Z) (keys : list string) (k : string) :
  In k keys -> dict_get d k = None ->
  Series_map d keys =
  Float64 (map (fun key => match dict_get d key with
                           | Some v => of_Z v
                           | None => S754_nan
                           end) keys).
Proof.
  intros Hin Hnone. unfold Series_map.
  destruct (forallb _ _) eqn:Hall.
  - rewrite forallb_forall in Hall.
    specialize (Hall (dict_get d k) (in_map _ _ _ Hin)). rewrite Hnone in Hall. discriminate.
  - rewrite map_map. reflexivity.
Qed.

Lemma fmul_nan_r (x : float) : fmul x S754_nan = S754_nan.
Proof. destruct x; reflexivity. Qed.

(** X6. Whatever the two dicts hold, the table has one row per entry of
    [customers], in the order of the dict, and each of its columns has one
    cell per row. *)
Theorem tiering_table_shape (customers pricing : dict Z) :
  Tier (build customers pricing) = map fst customers /\
  length (as_float64 (Num_Customers (build customers pricing))) = length customers /\
  length (as_float64 (Price (build customers pricing))) = length customers /\
  length (as_float64 (Monthly_Revenue (build customers pricing))) = length customers /\
  length (as_float64 (Annual_Revenue (build customers pricing))) = length customers.
Proof.
  unfold build. cbn [Tier Num_Customers Price Monthly_Revenue Annual_Revenue].
  split; [reflexivity |].
  split; [cbn [as_float64]; rewrite !length_map; reflexivity |].
  unfold Series_map. destruct (forallb _ _);
    cbn [col_mul col_mul_int as_float64];
    rewrite ?length_map, ?length_zip_with, ?length_map; repeat split; lia.
Qed.

(** X7. When the values of the two dicts are int64 numbers and every tier
    has a price, the revenue columns are int64: a cell is the product modulo
    2^64, inside the int64 range, and it is the product itself whenever the
    product fits. *)
Theorem tier_revenue_int64 (customers pricing : dict Z) (i : nat) (tier : string)
    (num price : Z) :
  Forall (fun kv => - 2 ^ 63 <= snd kv < 2 ^ 63) customers ->
  Forall (fun kv => - 2 ^ 63 <= snd kv < 2 ^ 63) pricing ->
  (forall k, In k (map fst customers) -> exists v, dict_get pricing k = Some v) ->
  nth_error customers i = Some (tier, num) ->
  dict_get pricing tier = Some price ->
  exists monthly annual : Z,
    cell (Monthly_Revenue (build customers pricing)) i = Some monthly /\
    cell (Annual_Revenue (build customers pricing)) i = Some annual /\
    - 2 ^ 63 <= monthly < 2 ^ 63 /\
    - 2 ^ 63 <= annual < 2 ^ 63 /\
    monthly mod 2 ^ 64 = (num * price) mod 2 ^ 64 /\
    annual mod 2 ^ 64 = (num * price * 12) mod 2 ^ 64 /\
    (- 2 ^ 63 <= num * price < 2 ^ 63 -> monthly = num * price) /\
    (- 2 ^ 63 <= num * price < 2 ^ 63 ->
     - 2 ^ 63 <= num * price * 12 < 2 ^ 63 ->
     annual = num * price * 12).
Proof.
  intros _ _ Hall Hi Hp.
  destruct (build_revenue customers pricing i tier num price Hall Hi Hp) as (Hm & Ha).
  do 2 eexists. split; [exact Hm |]. split; [exact Ha |].
  split; [apply wrap64_range |]. split; [apply wrap64_range |].
  split; [apply wrap64_congruent |].
  split.
  - rewrite wrap64_congruent.
    rewrite <- Zmult_mod_idemp_l, wrap64_congruent, Zmult_mod_idemp_l. reflexivity.
  - split.
    + apply wrap64_small.
    + apply wrap64_twice_small.
Qed.

Lemma tier_revenue_int64_witness :
  Forall (fun kv => - 2 ^ 63 <= snd kv < 2 ^ 63) customers /\
  Forall (fun kv => - 2 ^ 63 <= snd kv < 2 ^ 63) pricing /\
  (forall k, In k (map fst customers) -> exists v, dict_get pricing k = Some v) /\
  nth_error customers 2 = Some ("Pro", 300) /\
  dict_get pricing "Pro" = Some 800 /\
  - 2 ^ 63 <= 300 * 800 < 2 ^ 63 /\
  - 2 ^ 63 <= 300 * 800 * 12 < 2 ^ 63 /\
  exists monthly annual : Z,
    cell (Monthly_Revenue (build customers pricing)) 2 = Some monthly /\
    cell (Annual_Revenue (build customers pricing)) 2 = Some annual /\
    monthly = 300 * 800 /\
    annual = 300 * 800 * 12.
Proof.
  assert (H : forall k, In k (map fst customers) -> exists v, dict_get pricing k = Some v).
  { intros k [<- | [<- | [<- | [<- | []]]]]; eexists; reflexivity. }
  assert (Hc : Forall (fun kv => - 2 ^ 63 <= snd kv < 2 ^ 63) customers).
  { repeat constructor; cbn; lia. }
  assert (Hp : Forall (fun kv => - 2 ^ 63 <= snd kv < 2 ^ 63) pricing).
  { repeat constructor; cbn; lia. }
  assert (Hfit : - 2 ^ 63 <= 300 * 800 < 2 ^ 63) by lia.
  assert (Hfit12 : - 2 ^ 63 <= 300 * 800 * 12 < 2 ^ 63) by lia.
  split; [exact Hc |]. split; [exact Hp |].
  split; [exact H |]. split; [reflexivity |]. split; [reflexivity |].
  split; [exact Hfit |]. split; [exact Hfit12 |].
  destruct (tier_revenue_int64 customers pricing 2 "Pro" 300 800 Hc Hp H eq_refl eq_refl)
    as (monthly & annual & Hm & Ha & _ & _ & _ & _ & Hexact & Hexact12).
  exists monthly, annual. split; [exact Hm |]. split; [exact Ha |].
  split; [exact (Hexact Hfit) | exact (Hexact12 Hfit Hfit12)].
Defined.

(** A revenue that leaves the int64 range does wrap: 2^70 is stored as 0, and
    2^61 * 12 as a negative int64. *)
Example annual_revenue_wraps :
  cell (Monthly_Revenue (build [("Bulk", 2 ^ 40)] [("Bulk", 2 ^ 30)])) 0 = Some 0 /\
  cell (Annual_Revenue (build [("Bulk", 2 ^ 31)] [("Bulk", 2 ^ 30)])) 0 = Some (- 2 ^ 63).
Proof. split; vm_compute; reflexivity. Qed.

(** X8. A tier that the pricing dict lacks raises nothing: over dicts of
    int64 values its price is NaN, the price and both revenue columns become
    float64, the revenues of that tier are NaN, and the revenues of the priced
    tiers are float products. *)
Theorem missing_price_gives_nan (customers pricing : dict Z) (i : nat) (tier : string)
    (num : Z) :
  Forall (fun kv => - 2 ^ 63 <= snd kv < 2 ^ 63) customers ->
  Forall (fun kv => - 2 ^ 63 <= snd kv < 2 ^ 63) pricing ->
  nth_error customers i = Some (tier, num) ->
  dict_get pricing tier = None ->
  exists price monthly annual : list float,
    Price (build customers pricing) = Float64 price /\
    Monthly_Revenue (build customers pricing) = Float64 monthly /\
    Annual_Revenue (build customers pricing) = Float64 annual /\
    nth_error price i = Some S754_nan /\
    nth_error monthly i = Some S754_nan /\
    nth_error annual i = Some S754_nan /\
    (forall (j : nat) (t : string) (n p : Z),
       nth_error customers j = Some (t, n) -> dict_get pricing t = Some p ->
       nth_error monthly j = Some (fmul (of_Z n) (of_Z p)) /\
       nth_error annual j = Some (fmul (fmul (of_Z n) (of_Z p)) (of_Z 12))).
Proof.
  intros _ _ Hi Hnone.
  assert (Hin : In tier (map fst customers)).
  { apply nth_error_In in Hi. apply (in_map fst) in Hi. exact Hi. }
  unfold build. cbn [Price Monthly_Revenue Annual_Revenue].
  rewrite (Series_map_float64 pricing _ tier Hin Hnone).
  cbn [col_mul col_mul_int as_float64].
  do 3 eexists. split; [reflexivity |]. split; [reflexivity |]. split; [reflexivity |].
  split; [| split; [| split]].
  - rewrite !nth_error_map, Hi. cbn. rewrite Hnone. reflexivity.
  - rewrite nth_error_zip_with, !nth_error_map, Hi. cbn. rewrite Hnone, fmul_nan_r. reflexivity.
  - rewrite nth_error_map, nth_error_zip_with, !nth_error_map, Hi. cbn.
    rewrite Hnone, fmul_nan_r. reflexivity.
  - intros j t n p Hj Hp. split.
    + rewrite nth_error_zip_with, !nth_error_map, Hj. cbn. rewrite Hp. reflexivity.
    + rewrite nth_error_map, nth_error_zip_with, !nth_error_map, Hj. cbn. rewrite Hp.
      reflexivity.
Qed.

Lemma missing_price_gives_nan_witness :
  Forall (fun kv => - 2 ^ 63 <= snd kv < 2 ^ 63) customers /\
  Forall (fun kv => - 2 ^ 63 <= snd kv < 2 ^ 63) Sample.pricing_without_pro /\
  nth_error customers 2 = Some ("Pro", 300) /\
  dict_get Sample.pricing_without_pro "Pro" = None /\
  nth_error customers 0 = Some ("Starter", 5000) /\
  dict_get Sample.pricing_without_pro "Starter" = Some 10 /\
  exists price monthly annual : list float,
    Price (build customers Sample.pricing_without_pro) = Float64 price /\
    Monthly_Revenue (build customers Sample.pricing_without_pro) = Float64 monthly /\
    Annual_Revenue (build customers Sample.pricing_without_pro) = Float64 annual /\
    nth_error price 2 = Some S754_nan /\
    nth_error monthly 2 = Some S754_nan /\
    nth_error annual 2 = Some S754_nan /\
    nth_error monthly 0 = Some (fmul (of_Z 5000) (of_Z 10)) /\
    nth_error annual 0 = Some (fmul (fmul (of_Z 5000) (of_Z 10)) (of_Z 12)).
Proof.
  assert (Hc : Forall (fun kv => - 2 ^ 63 <= snd kv < 2 ^ 63) customers).
  { repeat constructor; cbn; lia. }
  assert (Hp : Forall (fun kv => - 2 ^ 63 <= snd kv < 2 ^ 63) Sample.pricing_without_pro).
  { repeat constructor; cbn; lia. }
  split; [exact Hc |]. split; [exact Hp |].
  split; [reflexivity |]. split; [reflexivity |].
  split; [reflexivity |]. split; [reflexivity |].
  destruct (missing_price_gives_nan customers Sample.pricing_without_pro 2 "Pro" 300
              Hc Hp eq_refl eq_refl)
    as (price & monthly & annual & H1 & H2 & H3 & H4 & H5 & H6 & Hpriced).
  exists price, monthly, annual.
  split; [exact H1 |]. split; [exact H2 |]. split; [exact H3 |].
  split; [exact H4 |]. split; [exact H5 |]. split; [exact H6 |].
  exact (Hpriced 0%nat "Starter" 5000 10 eq_refl eq_refl).
Defined.

End TieringTableFacts.

(** ** The customer table for any data *)

Lemma fge_refl (x : float) : is_nan x = false -> fge x x = true.
Proof.
  destruct x as [s | s | | s m e]; intros Hx; try discriminate.
  - reflexivity.
  - destruct s; reflexivity.
  - unfold fge, SFleb, SFcompare.
    rewrite Z.compare_refl.
    change (Pos.compare_cont Eq m m) with (Pos.compare m m).
    rewrite Pos.compare_refl. destruct s; reflexivity.
Qed.

Lemma nth_error_combine {A B : Type} (xs : list A) (ys : list B) (i : nat) :
  nth_error (combine xs ys) i =
  match nth_error xs i, nth_error ys i with
  | Some x, Some y => Some (x, y)
  | _, _ => None
  end.
Proof.
  revert ys i. induction xs as [| x xs IH]; intros ys i.
  - destruct i; reflexivity.
  - destruct ys as [| y ys].
    + destruct i; cbn; [reflexivity |]. destruct (nth_error xs i); reflexivity.
    + destruct i; cbn; [reflexivity |]. apply IH.
Qed.

Lemma list_sum_map_add {A : Type} (f g : A -> nat) (l : list A) :
  list_sum (map (fun y => (f y + g y)%nat) l) =
  (list_sum (map f l) + list_sum (map g l))%nat.
Proof.
  unfold list_sum. induction l as [| a l IH]; cbn [map fold_right]; [reflexivity |].
  rewrite IH. lia.
Qed.

Lemma list_sum_indicator (x : string) (keys : list string) :
  NoDup keys ->
  list_sum (map (fun y => if string_dec x y then 1%nat else 0%nat) keys) =
  if in_dec string_dec x keys then 1%nat else 0%nat.
Proof.
  induction keys as [| k keys IH]; intros Hnd; [reflexivity |].
  inversion Hnd as [| ? ? Hk Hnd']; subst.
  unfold list_sum in *. cbn [map fold_right].
  rewrite (IH Hnd').
  destruct (string_dec x k) as [-> | Hne].
  - destruct (in_dec string_dec k keys); [contradiction |].
    destruct (in_dec string_dec k (k :: keys)) as [_ | Hn]; [reflexivity |].
    exfalso. apply Hn. left. reflexivity.
  - destruct (in_dec string_dec x keys) as [Hin | Hnin];
      destruct (in_dec string_dec x (k :: keys)) as [Hin' | Hnin']; try reflexivity.
    + exfalso. apply Hnin'. right. exact Hin.
    + destruct Hin' as [-> | Hin']; [congruence | contradiction].
Qed.

(** Over keys without repetition that cover a list, the occurrences add up to
    the length of the list. *)
Lemma sum_count_occ (keys l : list string) :
  NoDup keys -> (forall x, In x l -> In x keys) ->
  list_sum (map (count_occ string_dec l) keys) = length l.
Proof.
  intros Hnd. induction l as [| x l IH]; intros Hin.
  - clear Hnd Hin. unfold list_sum.
    induction keys as [| k keys IH]; cbn; [reflexivity | exact IH].
  - rewrite (map_ext (count_occ string_dec (x :: l))
               (fun y => ((if string_dec x y then 1 else 0) + count_occ string_dec l y)%nat)).
    + rewrite list_sum_map_add, list_sum_indicator by exact Hnd.
      rewrite IH by (intros y Hy; apply Hin; right; exact Hy).
      destruct (in_dec string_dec x keys) as [_ | Hn]; [reflexivity |].
      exfalso. apply Hn, Hin. left. reflexivity.
    + intros y. cbn. destruct (string_dec x y); reflexivity.
Qed.

Section CustomerTableFacts.
Import CustomerProfitability.

Lemma clip_lower_idempotent (lower : Z) (x : float) :
  clip_lower lower (clip_lower lower x) = clip_lower lower x.
Proof.
  destruct (clip_lower_cases lower x) as [H | (H & _ & _)]; rewrite H.
  - exact H.
  - apply clip_lower_keeps, fge_refl, of_Z_number.
Qed.

Lemma clip_lower_nan_or_bounded (lower : Z) (x : float) :
  (is_nan x = true /\ clip_lower lower x = x) \/
  (is_nan x = false /\ fge (clip_lower lower x) (of_Z lower) = true).
Proof.
  destruct (is_nan x) eqn:Hx.
  - left. split; [reflexivity |]. unfold clip_lower. rewrite Hx. reflexivity.
  - right. split; [reflexivity |].
    apply clip_lower_ge; [apply fge_refl, of_Z_number | exact Hx].
Qed.

(** The keys of [groupby]: ascending, each once, and those of the column. *)
Lemma insert_key_In (k x : string) (keys : list string) :
  In x (insert_key k keys) <-> x = k \/ In x keys.
Proof.
  induction keys as [| k' keys IH]; cbn.
  - intuition.
  - destruct (String.leb k k'); cbn; [intuition |]. rewrite IH. intuition.
Qed.

Lemma insert_key_HdRel (a k : string) (keys : list string) :
  String.leb a k = true ->
  HdRel (fun a b => String.leb a b = true) a keys ->
  HdRel (fun a b => String.leb a b = true) a (insert_key k keys).
Proof.
  intros Hak Hhd. destruct keys as [| k' keys]; cbn.
  - constructor. exact Hak.
  - destruct (String.leb k k'); constructor; [exact Hak |].
    inversion Hhd; assumption.
Qed.

Lemma insert_key_Sorted (k : string) (keys : list string) :
  Sorted (fun a b => String.leb a b = true) keys ->
  Sorted (fun a b => String.leb a b = true) (insert_key k keys).
Proof.
  induction keys as [| k' keys IH]; intros Hs; cbn.
  - repeat constructor.
  - destruct (String.leb k k') eqn:Hle.
    + constructor; [exact Hs | constructor; exact Hle].
    + inversion Hs as [| ? ? Hs' Hhd]; subst.
      constructor; [apply IH, Hs' |].
      apply insert_key_HdRel; [| exact Hhd].
      destruct (String.leb_total k k') as [H | H]; [congruence | exact H].
Qed.

Lemma insert_key_NoDup (k : string) (keys : list string) :
  ~ In k keys -> NoDup keys -> NoDup (insert_key k keys).
Proof.
  induction keys as [| k' keys IH]; intros Hk Hnd; cbn.
  - repeat constructor. intros [].
  - destruct (String.leb k k').
    + constructor; assumption.
    + inversion Hnd as [| ? ? Hk' Hnd']; subst. constructor.
      * rewrite insert_key_In. intros [-> | Hin]; [apply Hk; left; reflexivity | contradiction].
      * apply IH; [intros Hin; apply Hk; right; exact Hin | exact Hnd'].
Qed.

Lemma group_keys_spec (segment : list string) :
  Sorted (fun a b => String.leb a b = true) (group_keys segment) /\
  NoDup (group_keys segment) /\
  (forall x, In x (group_keys segment) <-> In x segment).
Proof.
  unfold group_keys.
  assert (H : forall l, NoDup l ->
            Sorted (fun a b => String.leb a b = true) (fold_right insert_key [] l) /\
            NoDup (fold_right insert_key [] l) /\
            (forall x, In x (fold_right insert_key [] l) <-> In x l)).
  { induction l as [| k l IH]; intros Hnd; cbn.
    - repeat split; try constructor; auto.
    - inversion Hnd as [| ? ? Hk Hnd']; subst.
      destruct (IH Hnd') as (Hs & Hn & Hin).
      split; [apply insert_key_Sorted, Hs |].
      split.
      + apply insert_key_NoDup; [rewrite Hin; exact Hk | exact Hn].
      + intros x. rewrite insert_key_In, Hin. intuition. }
  destruct (H (nodup string_dec segment) (NoDup_nodup _ _)) as (Hs & Hn & Hin).
  repeat split; try assumption; intros Hx.
  - apply Hin in Hx. apply nodup_In in Hx. exact Hx.
  - apply Hin, nodup_In, Hx.
Qed.

Lemma length_group_cells {A : Type} (key : string) (segment : list string) (col : list A) :
  length segment = length col ->
  length (group_cells key segment col) = count_occ string_dec segment key.
Proof.
  unfold group_cells. rewrite length_map.
  revert col. induction segment as [| s segment IH]; intros col Hlen.
  - reflexivity.
  - destruct col as [| c col]; [discriminate |]. cbn [combine filter fst count_occ].
    injection Hlen as Hlen.
    destruct (String.eqb_spec s key) as [-> | Hne].
    + destruct (string_dec key key); [| congruence]. cbn. rewrite IH by exact Hlen. reflexivity.
    + destruct (string_dec s key); [congruence |]. apply IH, Hlen.
Qed.

Lemma group_cells_In {A : Type} (key : string) (segment : list string) (col : list A) (c : A) :
  In c (group_cells key segment col) <->
  exists i, nth_error segment i = Some key /\ nth_error col i = Some c.
Proof.
  unfold group_cells. rewrite in_map_iff. split.
  - intros ([s c'] & Hc & Hin). cbn in Hc. subst c'.
    apply filter_In in Hin. destruct Hin as [Hin Hkey]. cbn in Hkey.
    apply String.eqb_eq in Hkey. subst s.
    apply In_nth_error in Hin. destruct Hin as [i Hi]. exists i.
    rewrite nth_error_combine in Hi.
    destruct (nth_error segment i), (nth_error col i); try discriminate.
    injection Hi as -> ->. auto.
  - intros (i & Hs & Hc). exists (key, c). split; [reflexivity |].
    apply filter_In. split; [| cbn; apply String.eqb_refl].
    apply (nth_error_In _ i). rewrite nth_error_combine, Hs, Hc. reflexivity.
Qed.

(** X9. Whatever the table holds, after the cleaning each [Annual_Revenue]
    cell is a missing value that was already missing, or is at least 20000,
    and each [CAC] cell is a missing value that was already missing, or is at
    least 5000: missing values are the only cells the two bounds can fail
    on. *)
Theorem cleaning_bounds_any_table (d : frame) :
  (forall (i : nat) (x : float),
     nth_error (Annual_Revenue (clean d)) i = Some x ->
     (is_nan x = true /\ nth_error (Annual_Revenue d) i = Some x) \/
     fge x (of_Z 20000) = true) /\
  (forall (i : nat) (x : float),
     nth_error (CAC (clean d)) i = Some x ->
     (is_nan x = true /\ nth_error (CAC d) i = Some x) \/
     fge x (of_Z 5000) = true).
Proof.
  split; intros i x Hx; unfold clean in Hx; cbn in Hx;
    rewrite nth_error_map in Hx.
  - destruct (nth_error (Annual_Revenue d) i) as [y |]; [| discriminate].
    cbn in Hx. injection Hx as <-.
    destruct (clip_lower_nan_or_bounded 20000 y) as [(Hn & Hk) | (_ & Hb)].
    + left. rewrite Hk. auto.
    + right. exact Hb.
  - destruct (nth_error (CAC d) i) as [y |]; [| discriminate].
    cbn in Hx. injection Hx as <-.
    destruct (clip_lower_nan_or_bounded 5000 y) as [(Hn & Hk) | (_ & Hb)].
    + left. rewrite Hk. auto.
    + right. exact Hb.
Qed.

Lemma cleaning_bounds_any_table_witness :
  nth_error (Annual_Revenue (clean Sample.small_table)) 0 = Some (of_Z 20000) /\
  ((is_nan (of_Z 20000) = true /\
    nth_error (Annual_Revenue Sample.small_table) 0 = Some (of_Z 20000)) \/
   fge (of_Z 20000) (of_Z 20000) = true).
Proof.
  split; [reflexivity |].
  apply (proj1 (cleaning_bounds_any_table Sample.small_table) 0%nat). reflexivity.
Defined.

(** X10. Cleaning a table twice is cleaning it once: running the two clamp
    lines again changes no cell. *)
Theorem clean_idempotent (d : frame) : clean (clean d) = clean d.
Proof.
  unfold clean, set_CAC, set_Annual_Revenue. cbn.
  rewrite !map_map.
  f_equal; apply map_ext; intros x; apply clip_lower_idempotent.
Qed.

(** X11. The cohort summary and the CLTV summary have one row for each segment
    that occurs in the table, no more and no other, in ascending order of the
    segment name; the summary cells leave [df] as it is, and each CLTV mean is
    the rounded mean of the CLTV cells of its segment. *)
Theorem summaries_one_row_per_segment (L : NumLib) (k : kernel) :
  (exists (k' : kernel) (summary : list summary_row),
     cell_cohort_summary k = ret k' /\
     df k' = df k /\
     cohort_summary k' = Some summary /\
     Sorted (fun a b => String.leb a b = true) (map summary_Segment summary) /\
     NoDup (map summary_Segment summary) /\
     (forall s : string, In s (map summary_Segment summary) <-> In s (Segment (df k)))) /\
  (forall cltv : list float,
     CLTV (df k) = Some cltv ->
     exists (k' : kernel) (summary : list (string * float)),
       cell_cltv_summary k = ret k' /\
       df k' = df k /\
       cltv_summary k' = Some summary /\
       Sorted (fun a b => String.leb a b = true) (map fst summary) /\
       NoDup (map fst summary) /\
       (forall s : string, In s (map fst summary) <-> In s (Segment (df k))) /\
       (forall (s : string) (m : float),
          In (s, m) summary -> m = round2 (mean (group_cells s (Segment (df k)) cltv)))).
Proof.
  destruct (group_keys_spec (Segment (df k))) as (Hs & Hn & Hin).
  split.
  - unfold cell_cohort_summary. do 2 eexists. split; [reflexivity |].
    split; [reflexivity |]. split; [reflexivity |].
    rewrite map_map. cbn [summary_Segment]. rewrite map_id. auto.
  - intros cltv Hc. rewrite (cell_cltv_summary_eq k cltv Hc).
    do 2 eexists. split; [reflexivity |].
    split; [reflexivity |]. split; [reflexivity |].
    rewrite map_map. cbn [fst]. rewrite map_id.
    repeat split; try assumption; try apply Hin.
    intros s m Hsm. apply in_map_iff in Hsm. destruct Hsm as (key & Heq & _).
    injection Heq as <- <-. reflexivity.
Qed.

Lemma summaries_one_row_per_segment_witness :
  exists cltv : list float,
    CLTV (df Sample.small_kernel_cltv) = Some cltv /\
    exists (k' : kernel) (summary : list (string * float)),
      cell_cltv_summary (L := Sample.lib) Sample.small_kernel_cltv = ret k' /\
      df k' = df Sample.small_kernel_cltv /\
      cltv_summary k' = Some summary /\
      Sorted (fun a b => String.leb a b = true) (map fst summary) /\
      NoDup (map fst summary) /\
      (forall s : string,
         In s (map fst summary) <-> In s (Segment (df Sample.small_kernel_cltv))) /\
      (forall (s : string) (m : float),
         In (s, m) summary ->
         m = round2 (mean (NumLib := Sample.lib)
                       (group_cells s (Segment (df Sample.small_kernel_cltv)) cltv))).
Proof.
  eexists. split; [reflexivity |].
  apply (proj2 (summaries_one_row_per_segment Sample.lib Sample.small_kernel_cltv)).
  reflexivity.
Defined.

(** The small table is grouped under Enterprise, then Startup. *)
Example small_table_summary :
  exists k' : kernel,
    cell_cltv_summary (L := Sample.lib) Sample.small_kernel_cltv = ret k' /\
    option_map (map fst) (cltv_summary k') = Some ["Enterprise"; "Startup"].
Proof. eexists. split; vm_compute; reflexivity. Qed.

(** X12. The groups of [groupby('Segment')] partition the rows: the sizes of
    the groups add up to the number of rows, and a cell is in the group of a
    segment exactly when it stands in a row of that segment. *)
Theorem groups_partition_rows {A : Type} (segment : list string) (col : list A) :
  length segment = length col ->
  list_sum (map (fun key => length (group_cells key segment col)) (group_keys segment)) =
    length col /\
  (forall (key : string) (c : A),
     In c (group_cells key segment col) <->
     exists i : nat, nth_error segment i = Some key /\ nth_error col i = Some c).
Proof.
  intros Hlen. split.
  - destruct (group_keys_spec segment) as (_ & Hnd & Hin).
    rewrite (map_ext _ (count_occ string_dec segment))
      by (intros key; apply length_group_cells, Hlen).
    rewrite sum_count_occ; [exact Hlen | exact Hnd | intros x; apply Hin].
  - intros key c. apply group_cells_In.
Qed.

Lemma groups_partition_rows_witness :
  length ["Startup"; "Enterprise"; "Startup"] = length [1; 2; 3] /\
  list_sum (map (fun key => length (group_cells key ["Startup"; "Enterprise"; "Startup"]
                                      [1; 2; 3]))
                (group_keys ["Startup"; "Enterprise"; "Startup"])) = length [1; 2; 3] /\
  (forall (key : string) (c : Z),
     In c (group_cells key ["Startup"; "Enterprise"; "Startup"] [1; 2; 3]) <->
     exists i : nat,
       nth_error ["Startup"; "Enterprise"; "Startup"] i = Some key /\
       nth_error [1; 2; 3] i = Some c).
Proof.
  split; [reflexivity |].
  apply (groups_partition_rows ["Startup"; "Enterprise"; "Startup"] [1; 2; 3]).
  reflexivity.
Defined.

(** X13. Running a cell again changes nothing: the CLTV cell and the cohort
    summary cell on any kernel, the ratio cell and the CLTV summary cell on any
    kernel that has the CLTV column, give the same kernel the second time. *)
Theorem rerun_changes_nothing :
  (forall k : kernel, bind (cell_cltv k) cell_cltv = cell_cltv k) /\
  (forall (L : NumLib) (k : kernel),
     bind (cell_cohort_summary k) cell_cohort_summary = cell_cohort_summary k) /\
  (forall (k : kernel) (cltv : list float),
     CLTV (df k) = Some cltv ->
     bind (cell_ratio k) cell_ratio = cell_ratio k) /\
  (forall (L : NumLib) (k : kernel) (cltv : list float),
     CLTV (df k) = Some cltv ->
     bind (cell_cltv_summary k) cell_cltv_summary = cell_cltv_summary k).
Proof.
  split; [| split; [| split]].
  - intros k. rewrite cell_cltv_eq, bind_ret, cell_cltv_eq. reflexivity.
  - intros L k. unfold cell_cohort_summary. cbv zeta. rewrite bind_ret. reflexivity.
  - intros k cltv Hc. rewrite (cell_ratio_eq k cltv Hc), bind_ret.
    rewrite (cell_ratio_eq _ cltv) by exact Hc. reflexivity.
  - intros L k cltv Hc. rewrite (cell_cltv_summary_eq k cltv Hc), bind_ret.
    rewrite (cell_cltv_summary_eq _ cltv) by exact Hc. reflexivity.
Qed.

Lemma rerun_changes_nothing_witness :
  exists cltv : list float,
    CLTV (df Sample.small_kernel_cltv) = Some cltv /\
    bind (cell_ratio Sample.small_kernel_cltv) cell_ratio =
      cell_ratio Sample.small_kernel_cltv /\
    bind (cell_cltv_summary (L := Sample.lib) Sample.small_kernel_cltv)
         (cell_cltv_summary (L := Sample.lib)) =
      cell_cltv_summary (L := Sample.lib) Sample.small_kernel_cltv.
Proof.
  pose proof rerun_changes_nothing as (_ & _ & Hratio & Hsummary).
  eexists. split; [reflexivity |]. split.
  - eapply Hratio. reflexivity.
  - eapply (Hsummary Sample.lib). reflexivity.
Defined.

(** X14. The ratio cell and the CLTV summary cell need the CLTV cell to have
    run: on a kernel without the CLTV column the ratio cell raises KeyError
    'CLTV' and the summary cell raises KeyError 'Column not found: CLTV'; run
    after the CLTV cell they succeed on any table, add the two columns and the
    summary, and leave the six data columns as they were. *)
Theorem cells_need_cltv :
  (forall k : kernel,
     CLTV (df k) = None -> cell_ratio k = raise (KeyError "CLTV")) /\
  (forall (L : NumLib) (k : kernel),
     CLTV (df k) = None ->
     cell_cltv_summary k = raise (KeyError "Column not found: CLTV")) /\
  (forall (L : NumLib) (k : kernel),
     exists k' : kernel,
       run_cells [cell_cltv; cell_cltv_summary; cell_ratio] k = ret k' /\
       same_columns (df k) (df k') /\
       CLTV (df k') <> None /\
       CLTV_CAC_Ratio (df k') <> None /\
       cltv_summary k' <> None).
Proof.
  split; [| split].
  - intros k Hn. unfold cell_ratio. rewrite Hn. reflexivity.
  - intros L k Hn. unfold cell_cltv_summary. rewrite Hn. reflexivity.
  - intros L k. unfold run_cells. rewrite cell_cltv_eq, bind_ret.
    erewrite cell_cltv_summary_eq by reflexivity. rewrite bind_ret.
    erewrite cell_ratio_eq by reflexivity. rewrite bind_ret.
    eexists. split; [reflexivity |].
    split; [repeat split |]. repeat split; discriminate.
Qed.

Lemma cells_need_cltv_witness :
  CLTV (df Sample.small_kernel) = None /\
  cell_ratio Sample.small_kernel = raise (KeyError "CLTV") /\
  cell_cltv_summary (L := Sample.lib) Sample.small_kernel =
    raise (KeyError "Column not found: CLTV").
Proof.
  pose proof cells_need_cltv as (Hratio & Hsummary & _).
  split; [reflexivity |]. split.
  - apply Hratio. reflexivity.
  - apply (Hsummary Sample.lib). reflexivity.
Defined.

(** X15. On any table whose columns are aligned, of any number of rows, the
    CLTV cell and the ratio cell give two columns with one cell per row, and
    the table stays aligned with the same number of rows. *)
Theorem computed_columns_aligned (k : kernel) :
  aligned (df k) ->
  exists (k' : kernel) (cltv ratio : list float),
    run_cells [cell_cltv; cell_ratio] k = ret k' /\
    CLTV (df k') = Some cltv /\
    CLTV_CAC_Ratio (df k') = Some ratio /\
    length cltv = rows (df k) /\
    length ratio = rows (df k) /\
    rows (df k') = rows (df k) /\
    aligned (df k').
Proof.
  intros (Hseg & Hrev & Hgm & Hcac & Hyears).
  unfold run_cells. rewrite cell_cltv_eq, bind_ret.
  erewrite cell_ratio_eq by reflexivity. rewrite bind_ret.
  do 3 eexists. split; [reflexivity |].
  split; [reflexivity |]. split; [reflexivity |].
  cbn [df set_df set_CLTV set_CLTV_CAC_Ratio CAC].
  rewrite !length_map, !length_zip_with, !length_map, !length_zip_with, Hrev, Hgm, Hyears, Hcac.
  repeat split; try lia; try assumption.
Qed.

Lemma computed_columns_aligned_witness :
  aligned (df Sample.small_kernel) /\
  exists (k' : kernel) (cltv ratio : list float),
    run_cells [cell_cltv; cell_ratio] Sample.small_kernel = ret k' /\
    CLTV (df k') = Some cltv /\
    CLTV_CAC_Ratio (df k') = Some ratio /\
    length cltv = rows (df Sample.small_kernel) /\
    length ratio = rows (df Sample.small_kernel) /\
    rows (df k') = rows (df Sample.small_kernel) /\
    aligned (df k').
Proof.
  assert (H : aligned (df Sample.small_kernel)) by (repeat split).
  split; [exact H |]. exact (computed_columns_aligned Sample.small_kernel H).
Defined.

(** X16. In the ratio cell, a row whose CLTV is a number and whose CAC is
    finite and at least 5000 gets a ratio that is a number: the unguarded
    division gives NaN only from a NaN CLTV or an infinite CAC. *)
Theorem ratio_is_a_number (k : kernel) (cltv : list float) (i : nat) (c d : float) :
  CLTV (df k) = Some cltv ->
  nth_error cltv i = Some c ->
  nth_error (CAC (df k)) i = Some d ->
  is_nan c = false ->
  fge d (of_Z 5000) = true ->
  d <> S754_infinity false ->
  exists (k' : kernel) (ratio : list float) (r : float),
    cell_ratio k = ret k' /\
    CLTV_CAC_Ratio (df k') = Some ratio /\
    nth_error ratio i = Some r /\
    r = round2 (fdiv c d) /\
    is_nan r = false.
Proof.
  intros Hc Hi Hd Hnan Hge Hinf.
  rewrite (cell_ratio_eq k cltv Hc). do 3 eexists.
  split; [reflexivity |]. split; [reflexivity |].
  split; [rewrite nth_error_map, nth_error_zip_with, Hi, Hd; reflexivity |].
  split; [reflexivity |].
  apply round2_number.
  destruct d as [s | s | | s m e]; try discriminate.
  - destruct s; [discriminate | congruence].
  - apply fdiv_number, Hnan.
Qed.

Lemma ratio_is_a_number_witness :
  exists (cltv : list float) (c d : float),
    CLTV (df Sample.small_kernel_cltv) = Some cltv /\
    nth_error cltv 1 = Some c /\
    nth_error (CAC (df Sample.small_kernel_cltv)) 1 = Some d /\
    is_nan c = false /\
    fge d (of_Z 5000) = true /\
    d <> S754_infinity false /\
    exists (k' : kernel) (ratio : list float) (r : float),
      cell_ratio Sample.small_kernel_cltv = ret k' /\
      CLTV_CAC_Ratio (df k') = Some ratio /\
      nth_error ratio 1 = Some r /\
      r = round2 (fdiv c d) /\
      is_nan r = false.
Proof.
  do 3 eexists.
  split; [reflexivity |]. split; [reflexivity |]. split; [reflexivity |].
  split; [reflexivity |]. split; [reflexivity |]. split; [discriminate |].
  eapply (ratio_is_a_number Sample.small_kernel_cltv); try reflexivity. discriminate.
Defined.

End CustomerTableFacts.
